(** * Book Review API ([app_start.py]): a shallow embedding and its properties

    The application is a set of FastAPI route handlers over a SQLAlchemy
    session and a text-generation client.  The embedding follows the source:

    - pydantic models ([Book], [Review], [Summary]) and ORM classes
      ([BookModel], [ReviewModel]) are records;
    - the session is a state: the database behind it and the ORM objects it
      tracks, which handlers hold by reference, as Python does;
    - a handler is a computation in a state-and-exception monad [M];
    - a route is a handler run in a fresh session ([get_db]), followed by the
      validation of what it returned against the route's [response_model].

    The database is PostgreSQL, which [startup_event] names.  A flush that
    the database refuses raises and leaves it as it was: an [Integer] column
    takes a 32-bit integer or NULL and nothing else, a text has no NUL
    character and fits a row of the index on its column, a key comes from a
    32-bit sequence, and the foreign key declared on [reviews.book_id],
    which has no ON DELETE rule, forbids deleting a book that a review
    references.  A string is a sequence of 8-bit characters. *)

From Stdlib Require Import ZArith List String Ascii Bool QArith Qabs Permutation Lia.
Import ListNotations.

Local Open Scope string_scope.
Local Open Scope Z_scope.

(** ** Exceptions and results *)

(** The classes of the exceptions that reach a handler's caller; their
    messages are abbreviated. *)

Inductive Exception : Type :=
| HTTPException (status_code : Z) (detail : string)
| ResponseValidationError (loc : string)
| InvalidRequestError (msg : string)
| TypeError (msg : string)
| AttributeError (msg : string)
| IndexError (msg : string)
| ZeroDivisionError
| OverflowError (msg : string)
| DataError (msg : string)
| IntegrityError (msg : string)
| ArgumentError (msg : string)
| ValueError (msg : string)
| OperationalError (msg : string).

Inductive Result (A : Type) : Type :=
| Return (a : A)
| Raise (e : Exception).

Arguments Return {A} a.
Arguments Raise {A} e.

Definition rbind {A B} (r : Result A) (k : A -> Result B) : Result B :=
  match r with
  | Return a => k a
  | Raise e => Raise e
  end.

(** ** Python strings *)

(** [sep.join(l)] on a list of [str]. *)
Definition join (sep : string) (l : list string) : string := String.concat sep l.

(** [sep.join(l)] when items may be [None]: the first [None] raises (the
    message leaves out the index of the item). *)
Fixpoint join_optional (sep : string) (l : list (option string)) : Result string :=
  match l with
  | [] => Return ""
  | None :: _ => Raise (TypeError "sequence item: expected str instance, NoneType found")
  | Some x :: [] => Return x
  | Some x :: rest =>
      match join_optional sep rest with
      | Return s => Return (x ++ sep ++ s)
      | Raise e => Raise e
      end
  end.

(** Iterating a [str] yields its characters, each a one-character [str]. *)
Definition iter_str (s : string) : list string :=
  map (fun c => String c EmptyString) (list_ascii_of_string s).

Definition is_space (c : ascii) : bool :=
  let n := nat_of_ascii c in
  (Nat.eqb n 32 || (Nat.leb 9 n && Nat.leb n 13))%bool.

Fixpoint lstrip (s : string) : string :=
  match s with
  | EmptyString => EmptyString
  | String c rest => if is_space c then lstrip rest else s
  end.

Fixpoint rstrip (s : string) : string :=
  match s with
  | EmptyString => EmptyString
  | String c rest =>
      match rstrip rest with
      | EmptyString => if is_space c then EmptyString else String c EmptyString
      | rest' => String c rest'
      end
  end.

Definition strip (s : string) : string := rstrip (lstrip s).

(** ** Request bodies and pydantic models *)

(** A key of a JSON body: left out, [null], or given a value. *)
Inductive Field (A : Type) : Type :=
| Missing
| Null
| Given (a : A).

Arguments Missing {A}.
Arguments Null {A}.
Arguments Given {A} a.

(** What [year_published] of a parsed [Book] can hold.  The field is declared
    [Optional[int] = ""]: pydantic validates the value a request supplies
    ([null] or an integer) and takes the declared default, the empty string,
    as it is when the key is left out. *)
Inductive YearValue : Type :=
| YearNone
| YearInt (y : Z)
| YearEmptyStr.

Module Book.
Record t : Type := mk {
  id : option Z;
  title : string;
  author : string;
  genre : option string;
  year_published : YearValue;
  summary : option string
}.

(** The JSON body [POST /books] and [PUT /books/{id}] accept. *)
Record body : Type := mk_body {
  body_id : Field Z;
  body_title : string;
  body_author : string;
  body_genre : Field string;
  body_year_published : Field Z;
  body_summary : Field string
}.

Definition optional {A} (default : option A) (f : Field A) : option A :=
  match f with
  | Missing => default
  | Null => None
  | Given a => Some a
  end.

Definition set_id (k : Z) (b : t) : t :=
  mk (Some k) (title b) (author b) (genre b) (year_published b) (summary b).

(** Request validation: declared defaults fill the keys left out. *)
Definition parse_obj (b : body) : t :=
  {| id := optional None (body_id b);
     title := body_title b;
     author := body_author b;
     genre := optional (Some "") (body_genre b);
     year_published :=
       match body_year_published b with
       | Missing => YearEmptyStr
       | Null => YearNone
       | Given y => YearInt y
       end;
     summary := optional (Some "") (body_summary b) |}.
End Book.

Module Review.
Record t : Type := mk {
  id : option Z;
  book_id : option Z;
  user_id : Z;
  review_text : string;
  rating : Z
}.
End Review.

(** A Python [float] that is finite: a sign, a significand below [2^53] and
    an exponent from [-1074] to [971]; its value is the significand times two
    to the exponent.  Zero has the least exponent. *)
Module Float.
Record t : Type := mk {
  negative : bool;
  mantissa : Z;
  exponent : Z
}.

Definition zero : t := mk false 0 (-1074).

(** Two to the power [e], for any integer [e]. *)
Definition pow2 (e : Z) : Q := Qmake (2 ^ Z.max 0 e) (Z.to_pos (2 ^ Z.max 0 (- e))).

Definition to_Q (f : t) : Q :=
  Qmult (inject_Z (if negative f then - mantissa f else mantissa f))
        (pow2 (exponent f)).

(** The unit in the last place of [f]. *)
Definition ulp (f : t) : Q := pow2 (exponent f).

(** The significand fits 53 bits, the exponent is in range, and the
    significand has its leading bit set unless the exponent is the least. *)
Definition binary64 (f : t) : Prop :=
  0 <= mantissa f < 2 ^ 53 /\
  -1074 <= exponent f <= 971 /\
  (2 ^ 52 <= mantissa f \/ exponent f = -1074).
End Float.

Module Summary.
Record t : Type := mk {
  summary : string;
  rating : Float.t
}.
End Summary.

(** ** ORM classes *)

Module BookModel.
Record t : Type := mk {
  id : option Z;
  title : string;
  author : string;
  genre : option string;
  year_published : YearValue;
  summary : option string
}.

Definition set_id (k : Z) (b : t) : t :=
  mk (Some k) (title b) (author b) (genre b) (year_published b) (summary b).
Definition set_title (v : string) (b : t) : t :=
  mk (id b) v (author b) (genre b) (year_published b) (summary b).
Definition set_author (v : string) (b : t) : t :=
  mk (id b) (title b) v (genre b) (year_published b) (summary b).
Definition set_genre (v : option string) (b : t) : t :=
  mk (id b) (title b) (author b) v (year_published b) (summary b).
Definition set_year_published (v : YearValue) (b : t) : t :=
  mk (id b) (title b) (author b) (genre b) v (summary b).
Definition set_summary (v : option string) (b : t) : t :=
  mk (id b) (title b) (author b) (genre b) (year_published b) v.
End BookModel.

Module ReviewModel.
Record t : Type := mk {
  id : option Z;
  book_id : option Z;
  user_id : Z;
  review_text : string;
  rating : Z
}.

Definition set_id (k : Z) (r : t) : t :=
  mk (Some k) (book_id r) (user_id r) (review_text r) (rating r).
End ReviewModel.

(** A column compared with a Python integer, as in [BookModel.id == id]:
    a NULL column matches nothing. *)
Definition column_eq (c : option Z) (v : Z) : bool :=
  match c with
  | Some k => k =? v
  | None => false
  end.

Definition id_is (id : Z) (b : BookModel.t) : bool := column_eq (BookModel.id b) id.
Definition book_id_is (id : Z) (x : ReviewModel.t) : bool :=
  column_eq (ReviewModel.book_id x) id.

(** ** The database *)

(** A table: its rows in storage order and the last value of the sequence
    behind its autoincremented primary key. *)
Record Table (T : Type) : Type := mk_table {
  rows : list T;
  id_seq : Z
}.

Arguments mk_table {T} rows id_seq.
Arguments rows {T} t.
Arguments id_seq {T} t.

Record Database : Type := mk_database {
  books : Table BookModel.t;
  reviews : Table ReviewModel.t
}.

Definition empty_database : Database :=
  mk_database (mk_table [] 0) (mk_table [] 0).

(** What an [Integer] column holds. *)
Definition int4_min : Z := -2147483648.
Definition int4_max : Z := 2147483647.

Definition int4 (v : Z) : bool := (int4_min <=? v) && (v <=? int4_max).

(** Binding a Python value to an [Integer] column. *)
Definition bind_integer (v : Z) : Result unit :=
  if int4 v then Return tt else Raise (DataError "integer out of range").

(** Binding a [str] to a text column or to a parameter of a query: the
    driver refuses the NUL character. *)
Definition bind_text (s : string) : Result unit :=
  if existsb (Ascii.eqb Ascii.zero) (list_ascii_of_string s)
  then Raise (ValueError "A string literal cannot contain NUL (0x00) characters.")
  else Return tt.

Definition bind_optional_text (s : option string) : Result unit :=
  match s with
  | Some s => bind_text s
  | None => Return tt
  end.

(** Every text column is declared with [index=True], and PostgreSQL bounds
    a row of an index: 2704 bytes, after compression.  Whether a long text
    fits depends on how well it compresses, which is not modelled: a text of
    at most [index_text_max] characters fits whatever it holds (a character
    takes two bytes at most), and the model refuses the longer ones. *)
Definition index_text_max : nat := 1024.

Definition index_text (s : string) : Result unit :=
  if (String.length s <=? index_text_max)%nat then Return tt
  else Raise (OperationalError "index row size exceeds btree maximum").

Definition index_optional_text (s : option string) : Result unit :=
  match s with
  | Some s => index_text s
  | None => Return tt
  end.

Definition bind_year (y : YearValue) : Result unit :=
  match y with
  | YearNone => Return tt
  | YearInt v => bind_integer v
  | YearEmptyStr => Raise (DataError "invalid input syntax for type integer")
  end.

(** The values of a row of [books], as the driver and then the database
    take them. *)
Definition bind_book (b : BookModel.t) : Result unit :=
  rbind (bind_text (BookModel.title b)) (fun _ =>
  rbind (bind_text (BookModel.author b)) (fun _ =>
  rbind (bind_optional_text (BookModel.genre b)) (fun _ =>
  rbind (bind_optional_text (BookModel.summary b)) (fun _ =>
  rbind (bind_year (BookModel.year_published b)) (fun _ =>
  rbind (index_text (BookModel.title b)) (fun _ =>
  rbind (index_text (BookModel.author b)) (fun _ =>
  rbind (index_optional_text (BookModel.genre b)) (fun _ =>
  index_optional_text (BookModel.summary b))))))))).

(** The values of a row of [reviews]. *)
Definition bind_review (x : ReviewModel.t) : Result unit :=
  rbind (bind_text (ReviewModel.review_text x)) (fun _ =>
  rbind (bind_integer (ReviewModel.user_id x)) (fun _ =>
  rbind (bind_integer (ReviewModel.rating x)) (fun _ =>
  index_text (ReviewModel.review_text x)))).

(** The foreign key of [reviews.book_id]: a review references a stored
    book, and a referenced book stays. *)
Definition references_book (x : ReviewModel.t) (database : Database) : bool :=
  match ReviewModel.book_id x with
  | Some k => existsb (id_is k) (rows (books database))
  | None => false
  end.

Definition referenced (b : BookModel.t) (database : Database) : bool :=
  match BookModel.id b with
  | Some k => existsb (book_id_is k) (rows (reviews database))
  | None => false
  end.

Definition foreign_key_violation : Exception :=
  IntegrityError "violates foreign key constraint reviews_book_id_fkey".

Section TableOps.
Context {T : Type} (pk : T -> option Z) (set_pk : Z -> T -> T).

(** INSERT without a key: the sequence gives the next one, while it has
    one. *)
Definition table_insert (x : T) (tbl : Table T) : Result (Table T * T) :=
  let k := id_seq tbl + 1 in
  let x' := set_pk k x in
  if k <=? int4_max
  then Return (mk_table (rows tbl ++ [x'])%list k, x')
  else Raise (DataError "nextval: reached maximum value of sequence").

Definition same_key (x r : T) : bool :=
  match pk x with
  | Some k => column_eq (pk r) k
  | None => false
  end.

(** UPDATE ... WHERE id = key of [x]. *)
Definition table_update (x : T) (tbl : Table T) : Table T :=
  mk_table (map (fun r => if same_key x r then x else r) (rows tbl)) (id_seq tbl).

(** DELETE ... WHERE id = key of [x]. *)
Definition table_delete (x : T) (tbl : Table T) : Table T :=
  mk_table (filter (fun r => negb (same_key x r)) (rows tbl)) (id_seq tbl).

(** SELECT ... WHERE id = k LIMIT 1. *)
Definition table_get (k : Z) (tbl : Table T) : option T :=
  find (fun r => column_eq (pk r) k) (rows tbl).
End TableOps.

(** ** The session *)

(** ORM objects live in the session and are held by reference. *)
Inductive ObjState : Type := Pending | Persistent | Dirty | Deleted | Detached.

Inductive Obj : Type :=
| OBook (b : BookModel.t)
| OReview (r : ReviewModel.t).

Definition ref : Type := nat.

Record Session : Type := mk_session {
  engine : Database;
  identity_map : list (ObjState * Obj)
}.

(** [SessionLocal()] *)
Definition SessionLocal (database : Database) : Session :=
  mk_session database [].

(** ** The monad of handlers *)

Definition M (A : Type) : Type := Session -> Result A * Session.

Definition ret {A} (a : A) : M A := fun db => (Return a, db).

Definition raise {A} (e : Exception) : M A := fun db => (Raise e, db).

Definition mbind {A B} (m : M A) (k : A -> M B) : M B :=
  fun db =>
    match m db with
    | (Return a, db') => k a db'
    | (Raise e, db') => (Raise e, db')
    end.

Definition lift {A} (r : Result A) : M A := fun db => (r, db).

Declare Scope monad_scope.
Delimit Scope monad_scope with monad.
Notation "x <- m ;; k" := (mbind m (fun x => k))
  (at level 100, m at next level, right associativity) : monad_scope.
Notation "m ;;; k" := (mbind m (fun _ => k))
  (at level 100, right associativity) : monad_scope.
Local Open Scope monad_scope.

Fixpoint mapM {A B} (f : A -> M B) (l : list A) : M (list B) :=
  match l with
  | [] => ret []
  | a :: rest =>
      b <- f a ;;
      bs <- mapM f rest ;;
      ret (b :: bs)
  end.

(** ** Session operations *)

Definition set_nth {A} (n : nat) (x : A) (l : list A) : list A :=
  (firstn n l ++ match skipn n l with [] => [] | _ :: rest => x :: rest end)%list.

(** An object enters the identity map; the caller keeps the reference. *)
Definition track (st : ObjState) (o : Obj) : M ref :=
  fun db =>
    (Return (List.length (identity_map db)),
     mk_session (engine db) (identity_map db ++ [(st, o)])%list).

(** [db.add(obj)]: the object is pending until the next flush. *)
Definition db_add (o : Obj) : M ref := track Pending o.

(** SELECT over a table; nothing is flushed first ([autoflush=False]). *)
Definition select_books (p : BookModel.t -> bool) : M (list BookModel.t) :=
  fun db => (Return (filter p (rows (books (engine db)))), db).

Definition select_reviews (p : ReviewModel.t -> bool) : M (list ReviewModel.t) :=
  fun db => (Return (filter p (rows (reviews (engine db)))), db).

(** [db.query(BookModel).filter(p).first()] *)
Definition query_books_first (p : BookModel.t -> bool) : M (option ref) :=
  found <- select_books p ;;
  match found with
  | [] => ret None
  | row :: _ => r <- track Persistent (OBook row) ;; ret (Some r)
  end.

(** [db.query(BookModel).filter(p).all()] *)
Definition query_books_all (p : BookModel.t -> bool) : M (list ref) :=
  found <- select_books p ;;
  mapM (fun row => track Persistent (OBook row)) found.

(** [db.query(ReviewModel).filter(p).all()] *)
Definition query_reviews_all (p : ReviewModel.t -> bool) : M (list ref) :=
  found <- select_reviews p ;;
  mapM (fun row => track Persistent (OReview row)) found.

(** Reading the attributes of an object. *)
Definition getattrs_book (r : ref) : M BookModel.t :=
  fun db =>
    match nth_error (identity_map db) r with
    | Some (_, OBook b) => (Return b, db)
    | _ => (Raise (AttributeError "not a BookModel"), db)
    end.

Definition getattrs_review (r : ref) : M ReviewModel.t :=
  fun db =>
    match nth_error (identity_map db) r with
    | Some (_, OReview x) => (Return x, db)
    | _ => (Raise (AttributeError "not a ReviewModel"), db)
    end.

Definition modified (st : ObjState) : ObjState :=
  match st with
  | Persistent => Dirty
  | other => other
  end.

(** Assigning an attribute of a tracked object marks it dirty. *)
Definition setattr_book (r : ref) (f : BookModel.t -> BookModel.t) : M unit :=
  fun db =>
    match nth_error (identity_map db) r with
    | Some (st, OBook b) =>
        (Return tt,
         mk_session (engine db) (set_nth r (modified st, OBook (f b)) (identity_map db)))
    | _ => (Raise (AttributeError "not a BookModel"), db)
    end.

(** [db.delete(obj)] *)
Definition db_delete (r : ref) : M unit :=
  fun db =>
    match nth_error (identity_map db) r with
    | Some (Persistent, o) | Some (Dirty, o) =>
        (Return tt, mk_session (engine db) (set_nth r (Deleted, o) (identity_map db)))
    | _ => (Raise (InvalidRequestError "Instance is not persisted"), db)
    end.

(** Flushing one object: INSERT, UPDATE or DELETE by its state; the
    database may refuse. *)
Definition flush_obj (database : Database) (e : ObjState * Obj)
  : Result (Database * (ObjState * Obj)) :=
  match e with
  | (Pending, OBook b) =>
      rbind (bind_book b) (fun _ =>
      rbind (table_insert BookModel.set_id b (books database)) (fun inserted =>
      let (tbl, b') := inserted in
      Return (mk_database tbl (reviews database), (Persistent, OBook b'))))
  | (Dirty, OBook b) =>
      rbind (bind_book b) (fun _ =>
      Return (mk_database (table_update BookModel.id b (books database))
                          (reviews database),
              (Persistent, OBook b)))
  | (Deleted, OBook b) =>
      if referenced b database then Raise foreign_key_violation
      else Return (mk_database (table_delete BookModel.id b (books database))
                               (reviews database),
                   (Detached, OBook b))
  | (Pending, OReview x) =>
      rbind (bind_review x) (fun _ =>
      if references_book x database then
        rbind (table_insert ReviewModel.set_id x (reviews database)) (fun inserted =>
        let (tbl, x') := inserted in
        Return (mk_database (books database) tbl, (Persistent, OReview x')))
      else Raise foreign_key_violation)
  | (Dirty, OReview x) =>
      rbind (bind_review x) (fun _ =>
      if references_book x database then
        Return (mk_database (books database)
                            (table_update ReviewModel.id x (reviews database)),
                (Persistent, OReview x))
      else Raise foreign_key_violation)
  | (Deleted, OReview x) =>
      Return (mk_database (books database)
                          (table_delete ReviewModel.id x (reviews database)),
              (Detached, OReview x))
  | (Persistent, _) | (Detached, _) => Return (database, e)
  end.

Fixpoint flush (database : Database) (objs : list (ObjState * Obj))
  : Result (Database * list (ObjState * Obj)) :=
  match objs with
  | [] => Return (database, [])
  | e :: rest =>
      rbind (flush_obj database e) (fun flushed =>
      let (d, e') := flushed in
      rbind (flush d rest) (fun others =>
      let (d', rest') := others in
      Return (d', e' :: rest')))
  end.

(** [db.commit()]: flush the unit of work and commit.  When the database
    refuses a statement the exception leaves the handler; nothing of the
    transaction is kept. *)
Definition db_commit : M unit :=
  fun db =>
    match flush (engine db) (identity_map db) with
    | Return (d, objs) => (Return tt, mk_session d objs)
    | Raise e => (Raise e, db)
    end.

(** [db.refresh(obj)]: reload the attributes from the row with its key. *)
Definition db_refresh (r : ref) : M unit :=
  fun db =>
    let missing := Raise (InvalidRequestError "Could not refresh instance") in
    match nth_error (identity_map db) r with
    | Some (Persistent, OBook b) | Some (Dirty, OBook b) =>
        match BookModel.id b with
        | Some k =>
            match table_get BookModel.id k (books (engine db)) with
            | Some row =>
                (Return tt,
                 mk_session (engine db) (set_nth r (Persistent, OBook row) (identity_map db)))
            | None => (missing, db)
            end
        | None => (missing, db)
        end
    | Some (Persistent, OReview x) | Some (Dirty, OReview x) =>
        match ReviewModel.id x with
        | Some k =>
            match table_get ReviewModel.id k (reviews (engine db)) with
            | Some row =>
                (Return tt,
                 mk_session (engine db) (set_nth r (Persistent, OReview row) (identity_map db)))
            | None => (missing, db)
            end
        | None => (missing, db)
        end
    | _ => (Raise (InvalidRequestError "Instance is not persistent within this Session"), db)
    end.

(** The dependency [get_db]: a session for the request, closed on every
    exit; what was not committed is gone with it. *)
Definition get_db {A} (handler : M A) (database : Database) : Result A * Database :=
  let db := SessionLocal database in
  let (r, db') := handler db in
  (r, engine db').

(** ** Response models *)

(** [response_model=Book]: the returned ORM object is validated against the
    declared field types; [year_published] is [Optional[int]]. *)
Definition Book_from_orm (b : BookModel.t) : Result Book.t :=
  match BookModel.year_published b with
  | YearEmptyStr =>
      Raise (ResponseValidationError "year_published: value is not a valid integer")
  | y =>
      Return (Book.mk (BookModel.id b) (BookModel.title b) (BookModel.author b)
                      (BookModel.genre b) y (BookModel.summary b))
  end.

Definition Review_from_orm (x : ReviewModel.t) : Review.t :=
  Review.mk (ReviewModel.id x) (ReviewModel.book_id x) (ReviewModel.user_id x)
            (ReviewModel.review_text x) (ReviewModel.rating x).

Definition response_Book (r : ref) : M Book.t :=
  b <- getattrs_book r ;; lift (Book_from_orm b).

Definition response_Review (r : ref) : M Review.t :=
  x <- getattrs_review r ;; ret (Review_from_orm x).

(** ** Route handlers *)

Definition Book_not_found : Exception := HTTPException 404 "Book not found".
Definition No_reviews_found : Exception :=
  HTTPException 404 "No reviews found for this book".
Definition No_books_found : Exception := HTTPException 404 "No books found".

(** [add_book]; [create_all] creates the two tables when they are missing
    and leaves existing tables alone. *)
Definition add_book (book : Book.t) : M ref :=
  db_book <- db_add (OBook (BookModel.mk None (Book.title book) (Book.author book)
                                          (Book.genre book) (Book.year_published book)
                                          (Book.summary book))) ;;
  db_commit ;;;
  db_refresh db_book ;;;
  ret db_book.

Definition get_books : M (list ref) :=
  books <- query_books_all (fun _ => true) ;;
  ret books.

Definition get_book (id : Z) : M ref :=
  book <- query_books_first (id_is id) ;;
  match book with
  | None => raise Book_not_found
  | Some book => ret book
  end.

Definition update_book (id : Z) (book : Book.t) : M ref :=
  db_book <- query_books_first (id_is id) ;;
  match db_book with
  | None => raise Book_not_found
  | Some db_book =>
      setattr_book db_book (BookModel.set_title (Book.title book)) ;;;
      setattr_book db_book (BookModel.set_author (Book.author book)) ;;;
      setattr_book db_book (BookModel.set_genre (Book.genre book)) ;;;
      setattr_book db_book (BookModel.set_year_published (Book.year_published book)) ;;;
      setattr_book db_book (BookModel.set_summary (Book.summary book)) ;;;
      db_commit ;;;
      db_refresh db_book ;;;
      ret db_book
  end.

Definition delete_book (id : Z) : M string :=
  book <- query_books_first (id_is id) ;;
  match book with
  | None => raise Book_not_found
  | Some book =>
      db_delete book ;;;
      db_commit ;;;
      ret "Book deleted successfully"
  end.

Definition add_review (id : Z) (review : Review.t) : M ref :=
  book <- query_books_first (id_is id) ;;
  match book with
  | None => raise Book_not_found
  | Some book =>
      b <- getattrs_book book ;;
      db_review <- db_add (OReview (ReviewModel.mk None (BookModel.id b)
                                                   (Review.user_id review)
                                                   (Review.review_text review)
                                                   (Review.rating review))) ;;
      db_commit ;;;
      db_refresh db_review ;;;
      ret db_review
  end.

Definition get_reviews (id : Z) : M (list ref) :=
  reviews <- query_reviews_all (book_id_is id) ;;
  match reviews with
  | [] => raise No_reviews_found
  | _ => ret reviews
  end.

(** [sum(...)] over integers. *)
Definition sum (l : list Z) : Z := fold_left Z.add l 0.

(** Rounding a non-negative quotient to the nearest integer, ties to even. *)
Definition round_half_even (num den : Z) : Z :=
  let q := num / den in
  let r := num mod den in
  if (den <? 2 * r) || ((2 * r =? den) && Z.odd q) then q + 1 else q.

(** The integer [L] with [2^L <= A / B < 2^(L+1)], for positive [A] and
    [B]. *)
Definition floor_log2_quotient (A B : Z) : Z :=
  let la := Z.log2 A in
  let lb := Z.log2 B in
  if B * 2 ^ la <=? A * 2 ^ lb then la - lb else la - lb - 1.

(** The exponent of the last place of the float nearest to [A / B], above
    the least exponent [-1074]: 53 bits from the leading one, or the least
    exponent when the quotient is too small for that. *)
Definition last_place (A B : Z) : Z := Z.max (floor_log2_quotient A B + 1022) 0.

(** [A / B] in units of that last place, rounded. *)
Definition significand (A B : Z) : Z :=
  round_half_even (A * 2 ^ 1074) (B * 2 ^ last_place A B).

(** [a / b] on two integers: the quotient correctly rounded to a float,
    ties to even, with gradual underflow; [ZeroDivisionError] on a zero
    divisor and [OverflowError] when the result exceeds the floats. *)
Definition true_div (a : Z) (b : Z) : Result Float.t :=
  if b =? 0 then Raise ZeroDivisionError
  else
    let negative := xorb (a <? 0) (b <? 0) in
    let A := Z.abs a in
    let B := Z.abs b in
    if A =? 0 then Return (Float.mk negative 0 (-1074))
    else
      let E := last_place A B in
      let m := significand A B in
      (* rounding up to [2^53] takes the next exponent *)
      let E' := if m =? 2 ^ 53 then E + 1 else E in
      let m' := if m =? 2 ^ 53 then 2 ^ 52 else m in
      if 971 <? E' - 1074
      then Raise (OverflowError "integer division result too large for a float")
      else Return (Float.mk negative m' (E' - 1074)).

Definition len {A} (l : list A) : Z := Z.of_nat (List.length l).

Definition user_preferences : list string := ["fiction"; "adventure"; "mystery"].

(** The releases of SQLAlchemy on which the source runs (it executes a
    plain string, which 2.0 refuses). *)
Inductive SQLAlchemy : Type :=
| SQLAlchemy_1_3
| SQLAlchemy_1_4.

(** [column.in_(other)] with a [str] for [other]: 1.3 takes any iterable
    and compares the column with each of its items, the characters of the
    string, which become parameters of the query; 1.4 accepts a sequence
    that is not a string and raises otherwise. *)
Definition in_ (version : SQLAlchemy) (other : string) : Result (string -> bool) :=
  match version with
  | SQLAlchemy_1_3 => Return (fun v => existsb (String.eqb v) (iter_str other))
  | SQLAlchemy_1_4 =>
      Raise (ArgumentError "IN expression list, SELECT construct, or bound parameter object expected")
  end.

Definition summary_prompt (summary_texts : list string) : string :=
  "Summarize the following reviews: " ++ join " " summary_texts.

Section TextGeneration.
Variable version : SQLAlchemy.
(** [OllamaLLM(model="llama3").invoke]: a prompt in, the generated text out. *)
Variable invoke : string -> string.

Definition get_summary (id : Z) : M Summary.t :=
  book <- query_books_first (id_is id) ;;
  match book with
  | None => raise Book_not_found
  | Some _ =>
      reviews <- query_reviews_all (book_id_is id) ;;
      match reviews with
      | [] => raise No_reviews_found
      | _ =>
          loaded <- mapM getattrs_review reviews ;;
          let summary_texts := map ReviewModel.review_text loaded in
          average_rating <- lift (true_div (sum (map ReviewModel.rating loaded))
                                           (len reviews)) ;;
          let response := invoke (summary_prompt summary_texts) in
          ret (Summary.mk response average_rating)
      end
  end.

Definition recommendation_prompt (book_titles : list string) (summaries : string)
  : string :=
  "Based on the following user preferences: " ++ join ", " user_preferences ++
  ", recommend books from the following list: " ++ join ", " book_titles ++
  " with summaries: " ++ summaries.

Definition get_recommendations : M (list ref) :=
  books <- query_books_all (fun _ => true) ;;
  match books with
  | [] => raise No_books_found
  | _ =>
      loaded <- mapM getattrs_book books ;;
      let book_summaries := map BookModel.summary loaded in
      let book_titles := map BookModel.title loaded in
      summaries <- lift (join_optional ", " book_summaries) ;;
      let response := invoke (recommendation_prompt book_titles summaries) in
      title_in_response <- lift (in_ version response) ;;
      (* executing the query binds the items of the response *)
      lift (bind_text response) ;;;
      recommended_books <-
        query_books_all (fun b => title_in_response (BookModel.title b)) ;;
      ret recommended_books
  end.
End TextGeneration.

(** ** The ad-hoc summary handler *)

(** Python values as far as [generate_summary] looks into them. *)
#[local] Unset Elimination Schemes.
Inductive PyObject : Type :=
| PyStr (s : string)
| PyList (items : list PyObject)
| PyInstance (attrs : list (string * PyObject)).
#[local] Set Elimination Schemes.

(** [o.name] for a data attribute; a [str] and a [list] have none. *)
Definition getattr (o : PyObject) (name : string) : Result PyObject :=
  match o with
  | PyInstance attrs =>
      match find (fun kv => String.eqb (fst kv) name) attrs with
      | Some kv => Return (snd kv)
      | None => Raise (AttributeError ("object has no attribute '" ++ name ++ "'"))
      end
  | PyStr _ => Raise (AttributeError ("'str' object has no attribute '" ++ name ++ "'"))
  | PyList _ => Raise (AttributeError ("'list' object has no attribute '" ++ name ++ "'"))
  end.

(** [o[i]] for [i >= 0]. *)
Definition getitem (o : PyObject) (i : nat) : Result PyObject :=
  match o with
  | PyList items =>
      match nth_error items i with
      | Some x => Return x
      | None => Raise (IndexError "list index out of range")
      end
  | PyStr s =>
      match String.get i s with
      | Some c => Return (PyStr (String c EmptyString))
      | None => Raise (IndexError "string index out of range")
      end
  | PyInstance _ => Raise (TypeError "object is not subscriptable")
  end.

(** [o.strip()] *)
Definition call_strip (o : PyObject) : Result string :=
  match o with
  | PyStr s => Return (strip s)
  | _ => Raise (AttributeError "object has no attribute 'strip'")
  end.

Section AdHocSummary.
Variable invoke : string -> string.

(** [generate_summary]: [invoke] returns a [str], as in [get_summary] and
    [get_recommendations]. *)
Definition generate_summary (content : string) : Result Summary.t :=
  let response := PyStr (invoke ("Summarize the following content: " ++ content)) in
  rbind (getattr response "choices") (fun choices =>
  rbind (getitem choices 0) (fun choice =>
  rbind (getattr choice "text") (fun text =>
  rbind (call_strip text) (fun summary =>
  Return (Summary.mk summary Float.zero))))).
End AdHocSummary.

(** ** Routes *)

Definition Route (A : Type) : Type := Database -> Result A * Database.

Definition route_add_book (body : Book.body) : Route Book.t :=
  get_db (db_book <- add_book (Book.parse_obj body) ;; response_Book db_book).

Definition route_get_books : Route (list Book.t) :=
  get_db (books <- get_books ;; mapM response_Book books).

Definition route_get_book (id : Z) : Route Book.t :=
  get_db (book <- get_book id ;; response_Book book).

Definition route_update_book (id : Z) (body : Book.body) : Route Book.t :=
  get_db (db_book <- update_book id (Book.parse_obj body) ;; response_Book db_book).

Definition route_delete_book (id : Z) : Route string :=
  get_db (delete_book id).

Definition route_add_review (id : Z) (review : Review.t) : Route Review.t :=
  get_db (db_review <- add_review id review ;; response_Review db_review).

Definition route_get_reviews (id : Z) : Route (list Review.t) :=
  get_db (reviews <- get_reviews id ;; mapM response_Review reviews).

Definition route_get_summary (invoke : string -> string) (id : Z) : Route Summary.t :=
  get_db (get_summary invoke id).

Definition route_get_recommendations (version : SQLAlchemy) (invoke : string -> string)
  : Route (list Book.t) :=
  get_db (books <- get_recommendations version invoke ;; mapM response_Book books).

(** [generate_summary] takes no session. *)
Definition route_generate_summary (invoke : string -> string) (content : string)
  : Route Summary.t :=
  fun database => (generate_summary invoke content, database).

(** ** Vocabulary of the statements *)

(** The reviews stored for a book, in storage order. *)
Definition reviews_for (id : Z) (database : Database) : list ReviewModel.t :=
  filter (book_id_is id) (rows (reviews database)).

(** The stored book a key denotes, if any. *)
Definition book_with (id : Z) (database : Database) : option BookModel.t :=
  find (id_is id) (rows (books database)).

(** All results, or the first exception. *)
Fixpoint traverse {A} (l : list (Result A)) : Result (list A) :=
  match l with
  | [] => Return []
  | Raise e :: _ => Raise e
  | Return a :: rest =>
      match traverse rest with
      | Return l' => Return (a :: l')
      | Raise e => Raise e
      end
  end.

(** The arithmetic mean of a list of integers: their total over their count. *)
Definition arithmetic_mean (l : list Z) : Q :=
  Qdiv (inject_Z (fold_right Z.add 0 l)) (inject_Z (Z.of_nat (List.length l))).

(** Keys come from the table's sequence: every row has one, none beyond the
    sequence's last value. *)
Definition keys_below {T} (pk : T -> option Z) (tbl : Table T) : Prop :=
  Forall (fun r => exists k, pk r = Some k /\ k <= id_seq tbl) (rows tbl).

Definition well_formed (database : Database) : Prop :=
  keys_below BookModel.id (books database) /\
  keys_below ReviewModel.id (reviews database).

(** The row [add_review] stores and the response it gives. *)
Definition stored_review (k id : Z) (review : Review.t) : ReviewModel.t :=
  ReviewModel.mk (Some k) (Some id) (Review.user_id review)
                 (Review.review_text review) (Review.rating review).

(** The row [update_book] leaves for a book. *)
Definition updated_book (b : BookModel.t) (book : Book.t) : BookModel.t :=
  BookModel.mk (BookModel.id b) (Book.title book) (Book.author book)
               (Book.genre book) (Book.year_published book) (Book.summary book).

(** The row [add_book] stores. *)
Definition stored_book (k : Z) (book : Book.t) : BookModel.t :=
  BookModel.mk (Some k) (Book.title book) (Book.author book)
               (Book.genre book) (Book.year_published book) (Book.summary book).

(** The objects [add_book] and [add_review] add to the session. *)
Definition new_book (book : Book.t) : BookModel.t :=
  BookModel.mk None (Book.title book) (Book.author book)
               (Book.genre book) (Book.year_published book) (Book.summary book).

Definition new_review (id : Z) (review : Review.t) : ReviewModel.t :=
  ReviewModel.mk None (Some id) (Review.user_id review)
                 (Review.review_text review) (Review.rating review).

(** A handler that leaves the database behind the session as it found it. *)
Definition read_only {A} (m : M A) : Prop :=
  forall db, engine (snd (m db)) = engine db.

(** ** More vocabulary *)

(** No two rows of a table share a key. *)
Definition unique_keys {T} (pk : T -> option Z) (tbl : Table T) : Prop :=
  NoDup (map pk (rows tbl)).

(** The response a valid stored book is given. *)
Definition Book_of_row (b : BookModel.t) : Book.t :=
  Book.mk (BookModel.id b) (BookModel.title b) (BookModel.author b)
          (BookModel.genre b) (BookModel.year_published b) (BookModel.summary b).

(** The total of a list of integers as the statements write it. *)
Definition total (l : list Z) : Z := fold_right Z.add 0 l.

(** The rating of an answer of the summary route, or its exception. *)
Definition rating_of (answer : Result Summary.t) : Result Float.t :=
  rbind answer (fun s => Return (Summary.rating s)).

(** Posting reviews for a book, one request after the other. *)
Fixpoint add_reviews (id : Z) (l : list Review.t) (database : Database) : Database :=
  match l with
  | [] => database
  | review :: rest => add_reviews id rest (snd (route_add_review id review database))
  end.

(** Every stored review references a stored book. *)
Definition referential_integrity (database : Database) : Prop :=
  Forall (fun x => references_book x database = true) (rows (reviews database)).

(** ** Sample data *)

Definition dune : Book.body :=
  Book.mk_body Missing "Dune" "Herbert" Missing Missing Missing.

Definition dune_1965 : Book.body :=
  Book.mk_body Missing "Dune" "Herbert" Missing (Given 1965) Null.

Definition example_library : Database :=
  mk_database
    (mk_table [BookModel.mk (Some 1) "Dune" "Herbert" (Some "") (YearInt 1965) (Some "sand");
               BookModel.mk (Some 2) "D" "Anon" None YearNone (Some "")] 2)
    (mk_table [ReviewModel.mk (Some 1) (Some 1) 7 "great" 5;
               ReviewModel.mk (Some 2) (Some 1) 8 "long" 4] 2).

(** The same rows, the reviews stored the other way round. *)
Definition example_library_reordered : Database :=
  mk_database
    (books example_library)
    (mk_table [ReviewModel.mk (Some 2) (Some 1) 8 "long" 4;
               ReviewModel.mk (Some 1) (Some 1) 7 "great" 5] 2).

(** A book stored with [summary] null. *)
Definition unsummarised_library : Database :=
  mk_database
    (mk_table [BookModel.mk (Some 1) "Dune" "Herbert" (Some "") (YearInt 1965) None] 1)
    (mk_table [] 0).

Definition example_review : Review.t := Review.mk (Some 40) (Some 99) 7 "grim" (-3).

(** Text-generation clients for the examples. *)
Definition echo : string -> string := fun prompt => prompt.
Definition answer_D : string -> string := fun _ => "Dune D".

(** A client that answers with the empty text. *)
Definition silent : string -> string := fun _ => "".

(** A book without reviews, and three reviews to post. *)
Definition one_book : Database :=
  mk_database
    (mk_table [BookModel.mk (Some 1) "Dune" "Herbert" (Some "") (YearInt 1965) (Some "sand")] 1)
    (mk_table [] 0).

Definition thin : Review.t := Review.mk None None 7 "thin" 1.
Definition fair : Review.t := Review.mk None None 8 "fair" 2.
Definition fine : Review.t := Review.mk None None 9 "fine" 2.


(** ** Lists and tables *)

Lemma find_hd_filter {A} (p : A -> bool) (l : list A) :
  match filter p l with [] => None | x :: _ => Some x end = find p l.
Proof.
  induction l as [|a l IH]; simpl; [reflexivity|].
  destruct (p a); [reflexivity | exact IH].
Qed.

Lemma find_app_fresh {A} (p : A -> bool) (l : list A) (x : A) :
  (forall r, In r l -> p r = false) ->
  find p (l ++ [x]) = if p x then Some x else None.
Proof.
  induction l as [|a l IH]; intros Hfresh; simpl; [reflexivity|].
  rewrite (Hfresh a) by (left; reflexivity).
  apply IH. intros r Hr. apply Hfresh. right. exact Hr.
Qed.

Lemma column_eq_true (c : option Z) (v : Z) :
  column_eq c v = true <-> c = Some v.
Proof.
  destruct c as [k|]; simpl.
  - rewrite Z.eqb_eq. split; [intros ->; reflexivity | intros [= ->]; reflexivity].
  - split; discriminate.
Qed.

Lemma keys_below_fresh {T} (pk : T -> option Z) (tbl : Table T) :
  keys_below pk tbl ->
  forall r, In r (rows tbl) -> column_eq (pk r) (id_seq tbl + 1) = false.
Proof.
  intros Hk r Hr. unfold keys_below in Hk. rewrite Forall_forall in Hk.
  destruct (Hk r Hr) as [k [Hpk Hle]]. rewrite Hpk. simpl.
  apply Z.eqb_neq. lia.
Qed.

Lemma find_some_key (id : Z) (l : list BookModel.t) (b : BookModel.t) :
  find (id_is id) l = Some b -> BookModel.id b = Some id.
Proof.
  intros H. apply find_some in H. destruct H as [_ H].
  apply column_eq_true. exact H.
Qed.

(** After UPDATE by key, SELECT by that key gives the updated row. *)
Lemma find_table_update {T} (pk : T -> option Z) (x : T) (k : Z) (l : list T) :
  pk x = Some k ->
  existsb (fun r => column_eq (pk r) k) l = true ->
  find (fun r => column_eq (pk r) k)
       (map (fun r => if same_key pk x r then x else r) l) = Some x.
Proof.
  intros Hx. unfold same_key. rewrite Hx.
  induction l as [|a l IH]; simpl; [discriminate|].
  destruct (column_eq (pk a) k) eqn:Ha; simpl.
  - intros _. rewrite Hx. simpl. rewrite Z.eqb_refl. reflexivity.
  - intros H. rewrite Ha. apply IH. exact H.
Qed.

(** After DELETE by key, SELECT by that key gives nothing. *)
Lemma find_table_delete {T} (pk : T -> option Z) (x : T) (k : Z) (l : list T) :
  pk x = Some k ->
  find (fun r => column_eq (pk r) k)
       (filter (fun r => negb (same_key pk x r)) l) = None.
Proof.
  intros Hx. unfold same_key. rewrite Hx.
  induction l as [|a l IH]; simpl; [reflexivity|].
  destruct (column_eq (pk a) k) eqn:Ha; simpl; [exact IH|].
  rewrite Ha. exact IH.
Qed.

Lemma find_existsb {A} (p : A -> bool) (l : list A) (x : A) :
  find p l = Some x -> existsb p l = true.
Proof.
  intros H. apply find_some in H. apply existsb_exists. exists x. exact H.
Qed.

Lemma find_none_existsb {A} (p : A -> bool) (l : list A) :
  find p l = None <-> existsb p l = false.
Proof.
  induction l as [|a l IH]; simpl; [tauto|].
  destruct (p a); simpl; [split; discriminate | exact IH].
Qed.

Lemma traverse_Return {A B} (h : A -> B) (l : list A) :
  traverse (map (fun a => Return (h a)) l) = Return (map h l).
Proof.
  induction l as [|a l IH]; simpl; [reflexivity|]. rewrite IH. reflexivity.
Qed.

(** ** Running session operations *)

Lemma mapM_track {T} (mk : T -> Obj) (found : list T) (db : Session) :
  mapM (fun row => track Persistent (mk row)) found db =
  (Return (seq (List.length (identity_map db)) (List.length found)),
   mk_session (engine db)
              (identity_map db ++ map (fun row => (Persistent, mk row)) found)%list).
Proof.
  revert db. induction found as [|x found IH]; intros db; simpl.
  - unfold ret. rewrite app_nil_r. destruct db; reflexivity.
  - unfold mbind at 1. unfold track at 1. unfold mbind at 1.
    rewrite IH. simpl. unfold ret.
    rewrite length_app, Nat.add_1_r, <- app_assoc. reflexivity.
Qed.

(** Reading the objects a query has just loaded gives back the rows. *)
Lemma mapM_loaded {T B} (mk : T -> Obj) (f : ref -> M B) (g : T -> Result B) :
  (forall db r st x,
      nth_error (identity_map db) r = Some (st, mk x) -> f r db = (g x, db)) ->
  forall found pre post eng,
    let db := mk_session eng
                (pre ++ map (fun x => (Persistent, mk x)) found ++ post)%list in
    mapM f (seq (List.length pre) (List.length found)) db
    = (traverse (map g found), db).
Proof.
  intros Hf found. induction found as [|x found IH]; intros pre post eng db.
  - reflexivity.
  - simpl. unfold mbind at 1.
    rewrite (Hf db (List.length pre) Persistent x).
    + destruct (g x) as [b|e]; [|reflexivity].
      unfold mbind at 1.
      assert (Hdb : db = mk_session eng
                ((pre ++ [(Persistent, mk x)]) ++
                 map (fun x => (Persistent, mk x)) found ++ post)%list).
      { unfold db. simpl. rewrite <- app_assoc. reflexivity. }
      assert (Hlen : S (List.length pre) = List.length (pre ++ [(Persistent, mk x)])%list).
      { rewrite length_app, Nat.add_1_r. reflexivity. }
      rewrite Hlen. rewrite Hdb at 1. rewrite IH. rewrite <- Hdb.
      destruct (traverse (map g found)); reflexivity.
    + unfold db. simpl. rewrite nth_error_app2 by lia.
      rewrite Nat.sub_diag. reflexivity.
Qed.

Lemma getattrs_book_loaded db r st b :
  nth_error (identity_map db) r = Some (st, OBook b) ->
  getattrs_book r db = (Return b, db).
Proof. intros H. unfold getattrs_book. rewrite H. reflexivity. Qed.

Lemma getattrs_review_loaded db r st x :
  nth_error (identity_map db) r = Some (st, OReview x) ->
  getattrs_review r db = (Return x, db).
Proof. intros H. unfold getattrs_review. rewrite H. reflexivity. Qed.

Lemma response_Book_loaded db r st b :
  nth_error (identity_map db) r = Some (st, OBook b) ->
  response_Book r db = (Book_from_orm b, db).
Proof.
  intros H. unfold response_Book, mbind. rewrite (getattrs_book_loaded _ _ _ _ H).
  reflexivity.
Qed.

Lemma response_Review_loaded db r st x :
  nth_error (identity_map db) r = Some (st, OReview x) ->
  response_Review r db = (Return (Review_from_orm x), db).
Proof.
  intros H. unfold response_Review, mbind. rewrite (getattrs_review_loaded _ _ _ _ H).
  reflexivity.
Qed.

(** ** Handlers that only read *)

Lemma read_only_ret {A} (a : A) : read_only (ret a).
Proof. intros db. reflexivity. Qed.

Lemma read_only_raise {A} (e : Exception) : read_only (@raise A e).
Proof. intros db. reflexivity. Qed.

Lemma read_only_lift {A} (r : Result A) : read_only (lift r).
Proof. intros db. reflexivity. Qed.

Lemma read_only_bind {A B} (m : M A) (k : A -> M B) :
  read_only m -> (forall a, read_only (k a)) -> read_only (mbind m k).
Proof.
  intros Hm Hk db. unfold mbind. specialize (Hm db).
  destruct (m db) as [[a|e] db']; simpl in *.
  - rewrite Hk. exact Hm.
  - exact Hm.
Qed.

Lemma read_only_mapM {A B} (f : A -> M B) (l : list A) :
  (forall a, read_only (f a)) -> read_only (mapM f l).
Proof.
  intros Hf. induction l as [|a l IH]; simpl.
  - apply read_only_ret.
  - apply read_only_bind; [apply Hf|]. intros b.
    apply read_only_bind; [exact IH|]. intros bs. apply read_only_ret.
Qed.

Lemma read_only_track st o : read_only (track st o).
Proof. intros db. reflexivity. Qed.

Lemma read_only_select_books p : read_only (select_books p).
Proof. intros db. reflexivity. Qed.

Lemma read_only_select_reviews p : read_only (select_reviews p).
Proof. intros db. reflexivity. Qed.

Lemma read_only_getattrs_book r : read_only (getattrs_book r).
Proof.
  intros db. unfold getattrs_book.
  destruct (nth_error (identity_map db) r) as [[st [b|x]]|]; reflexivity.
Qed.

Lemma read_only_getattrs_review r : read_only (getattrs_review r).
Proof.
  intros db. unfold getattrs_review.
  destruct (nth_error (identity_map db) r) as [[st [b|x]]|]; reflexivity.
Qed.

Create HintDb read_only.
#[local] Hint Resolve read_only_ret read_only_raise read_only_lift read_only_track
  read_only_select_books read_only_select_reviews read_only_getattrs_book
  read_only_getattrs_review : read_only.

Ltac read_only_steps :=
  repeat first
    [ apply read_only_bind; [|intros ?]
    | apply read_only_mapM; intros ?
    | match goal with
      | |- read_only (match ?x with _ => _ end) => destruct x
      end
    | solve [auto with read_only] ].

Lemma read_only_query_books_first p : read_only (query_books_first p).
Proof. unfold query_books_first. read_only_steps. Qed.

Lemma read_only_query_books_all p : read_only (query_books_all p).
Proof. unfold query_books_all. read_only_steps. Qed.

Lemma read_only_query_reviews_all p : read_only (query_reviews_all p).
Proof. unfold query_reviews_all. read_only_steps. Qed.

Lemma read_only_response_Book r : read_only (response_Book r).
Proof. unfold response_Book. read_only_steps. Qed.

Lemma read_only_response_Review r : read_only (response_Review r).
Proof. unfold response_Review. read_only_steps. Qed.

#[local] Hint Resolve read_only_query_books_first read_only_query_books_all
  read_only_query_reviews_all read_only_response_Book read_only_response_Review
  : read_only.

Lemma read_only_get_books : read_only get_books.
Proof. unfold get_books. read_only_steps. Qed.

Lemma read_only_get_book id : read_only (get_book id).
Proof. unfold get_book. read_only_steps. Qed.

Lemma read_only_get_reviews id : read_only (get_reviews id).
Proof. unfold get_reviews. read_only_steps. Qed.

Lemma read_only_get_summary invoke id : read_only (get_summary invoke id).
Proof. unfold get_summary. read_only_steps. Qed.

Lemma read_only_get_recommendations version invoke :
  read_only (get_recommendations version invoke).
Proof. unfold get_recommendations. read_only_steps. Qed.

(** A read-only handler run by [get_db] hands the database back unchanged. *)
Lemma get_db_read_only {A} (handler : M A) (database : Database) :
  read_only handler -> snd (get_db handler database) = database.
Proof.
  intros H. unfold get_db. specialize (H (SessionLocal database)).
  destruct (handler (SessionLocal database)) as [r db']. simpl in *. exact H.
Qed.

Lemma mapM_loaded_after {T B} (mk : T -> Obj) (f : ref -> M B) (g : T -> Result B) :
  (forall db r st x,
      nth_error (identity_map db) r = Some (st, mk x) -> f r db = (g x, db)) ->
  forall found pre eng,
    let db := mk_session eng (pre ++ map (fun x => (Persistent, mk x)) found)%list in
    mapM f (seq (List.length pre) (List.length found)) db
    = (traverse (map g found), db).
Proof.
  intros Hf found pre eng db.
  pose proof (mapM_loaded mk f g Hf found pre [] eng) as H.
  cbv zeta in H. rewrite app_nil_r in H. exact H.
Qed.

(** ** What each route computes *)

Lemma route_get_reviews_eq (id : Z) (database : Database) :
  route_get_reviews id database =
  (match reviews_for id database with
   | [] => Raise No_reviews_found
   | found => Return (map Review_from_orm found)
   end, database).
Proof.
  unfold route_get_reviews, get_db, get_reviews, query_reviews_all, reviews_for.
  unfold mbind at 1 2 3. unfold select_reviews. simpl.
  rewrite mapM_track. simpl.
  destruct (filter (book_id_is id) (rows (reviews database))) as [|x found] eqn:E.
  - reflexivity.
  - cbn [List.length seq]. unfold ret at 1.
    pose proof (mapM_loaded_after OReview response_Review
                  (fun x => Return (Review_from_orm x)) response_Review_loaded
                  (x :: found) [] database) as H.
    cbv zeta in H. cbn [List.length seq app] in H. rewrite H.
    rewrite traverse_Return. reflexivity.
Qed.

Lemma filter_true {A} (l : list A) : filter (fun _ => true) l = l.
Proof. induction l as [|a l IH]; simpl; [|rewrite IH]; reflexivity. Qed.

Lemma route_get_books_eq (database : Database) :
  route_get_books database =
  (traverse (map Book_from_orm (rows (books database))), database).
Proof.
  unfold route_get_books, get_db, get_books, query_books_all.
  unfold mbind at 1 2 3. unfold select_books. simpl.
  rewrite mapM_track. simpl. rewrite filter_true.
  pose proof (mapM_loaded_after OBook response_Book Book_from_orm response_Book_loaded
                (rows (books database)) [] database) as H.
  cbv zeta in H. cbn [List.length app] in H. rewrite H. reflexivity.
Qed.

Lemma route_get_book_eq (id : Z) (database : Database) :
  route_get_book id database =
  (match book_with id database with
   | None => Raise Book_not_found
   | Some b => Book_from_orm b
   end, database).
Proof.
  unfold route_get_book, get_db, get_book, query_books_first, book_with.
  rewrite <- find_hd_filter.
  unfold mbind at 1 2 3. unfold select_books. simpl.
  destruct (filter (id_is id) (rows (books database))) as [|b found]; [reflexivity|].
  unfold mbind, track, ret, response_Book, getattrs_book, lift. simpl.
  destruct (Book_from_orm b); reflexivity.
Qed.

Lemma query_books_first_run (p : BookModel.t -> bool) (db : Session) :
  query_books_first p db =
  match find p (rows (books (engine db))) with
  | None => (Return None, db)
  | Some b =>
      (Return (Some (List.length (identity_map db))),
       mk_session (engine db) (identity_map db ++ [(Persistent, OBook b)])%list)
  end.
Proof.
  unfold query_books_first, mbind, select_books. rewrite <- find_hd_filter.
  destruct (filter p (rows (books (engine db)))); reflexivity.
Qed.

Lemma query_books_all_run (p : BookModel.t -> bool) (db : Session) :
  query_books_all p db =
  (Return (seq (List.length (identity_map db))
               (List.length (filter p (rows (books (engine db)))))),
   mk_session (engine db)
     (identity_map db ++
      map (fun row => (Persistent, OBook row)) (filter p (rows (books (engine db)))))%list).
Proof. unfold query_books_all, mbind, select_books. apply mapM_track. Qed.

Lemma query_reviews_all_run (p : ReviewModel.t -> bool) (db : Session) :
  query_reviews_all p db =
  (Return (seq (List.length (identity_map db))
               (List.length (filter p (rows (reviews (engine db)))))),
   mk_session (engine db)
     (identity_map db ++
      map (fun row => (Persistent, OReview row)) (filter p (rows (reviews (engine db)))))%list).
Proof. unfold query_reviews_all, mbind, select_reviews. apply mapM_track. Qed.

(** A book is referenced when a review is stored for its key. *)
Lemma existsb_filter {A} (p : A -> bool) (l : list A) :
  existsb p l = false <-> filter p l = [].
Proof.
  induction l as [|a l IH]; simpl; [tauto|].
  destruct (p a); simpl; [split; discriminate | exact IH].
Qed.

Lemma referenced_reviews_for (id : Z) (b : BookModel.t) (database : Database) :
  BookModel.id b = Some id ->
  referenced b database = false <-> reviews_for id database = [].
Proof.
  intros Hid. unfold referenced, reviews_for. rewrite Hid. apply existsb_filter.
Qed.

(** [DELETE /books/{id}] *)
Lemma route_delete_book_eq (id : Z) (database : Database) :
  route_delete_book id database =
  match book_with id database with
  | None => (Raise Book_not_found, database)
  | Some b =>
      if referenced b database then (Raise foreign_key_violation, database)
      else
        (Return "Book deleted successfully",
         mk_database (table_delete BookModel.id b (books database)) (reviews database))
  end.
Proof.
  unfold route_delete_book, get_db, delete_book.
  unfold mbind at 1. rewrite query_books_first_run.
  cbn [SessionLocal engine identity_map List.length app]. unfold book_with.
  destruct (find (id_is id) (rows (books database))) as [b|]; [|reflexivity].
  unfold mbind, db_delete, db_commit, ret.
  cbn [identity_map engine nth_error set_nth firstn skipn app flush flush_obj rbind].
  destruct (referenced b database); reflexivity.
Qed.

(** [POST /books/{id}/reviews] *)
Lemma route_add_review_eq (id : Z) (review : Review.t) (database : Database) :
  keys_below ReviewModel.id (reviews database) ->
  route_add_review id review database =
  match book_with id database with
  | None => (Raise Book_not_found, database)
  | Some b =>
      match bind_review (new_review id review) with
      | Raise e => (Raise e, database)
      | Return _ =>
          let k := id_seq (reviews database) + 1 in
          if k <=? int4_max then
            (Return (Review_from_orm (stored_review k id review)),
             mk_database (books database)
                         (mk_table (rows (reviews database) ++ [stored_review k id review])
                                   k))
          else (Raise (DataError "nextval: reached maximum value of sequence"), database)
      end
  end.
Proof.
  intros Hk.
  unfold route_add_review, get_db, add_review.
  unfold mbind at 1 2. rewrite query_books_first_run.
  cbn [SessionLocal engine identity_map List.length app]. unfold book_with.
  destruct (find (id_is id) (rows (books database))) as [b|] eqn:Hb; [|reflexivity].
  pose proof (find_some_key _ _ _ Hb) as Hkey.
  pose proof (find_existsb _ _ _ Hb) as Hex.
  unfold mbind, getattrs_book, db_add, track, db_commit, db_refresh, ret,
    response_Review, getattrs_review.
  cbn [identity_map engine nth_error List.length app flush flush_obj rbind].
  rewrite Hkey. fold (new_review id review).
  destruct (bind_review (new_review id review)) as [[]|e]; [|reflexivity].
  cbn [rbind]. unfold references_book. cbn [new_review ReviewModel.book_id].
  rewrite Hex. unfold table_insert.
  destruct (id_seq (reviews database) + 1 <=? int4_max); [|reflexivity].
  cbn [rbind identity_map engine nth_error reviews books ReviewModel.set_id
       ReviewModel.id ReviewModel.book_id ReviewModel.user_id ReviewModel.review_text
       ReviewModel.rating].
  unfold table_get. cbn [rows].
  rewrite find_app_fresh by (apply keys_below_fresh; exact Hk).
  cbn [find ReviewModel.id ReviewModel.set_id column_eq]. rewrite Z.eqb_refl.
  reflexivity.
Qed.

(** [POST /books] *)
Lemma route_add_book_eq (body : Book.body) (database : Database) :
  keys_below BookModel.id (books database) ->
  let book := Book.parse_obj body in
  route_add_book body database =
  match bind_book (new_book book) with
  | Raise e => (Raise e, database)
  | Return _ =>
      let k := id_seq (books database) + 1 in
      if k <=? int4_max then
        (Book_from_orm (stored_book k book),
         mk_database (mk_table (rows (books database) ++ [stored_book k book]) k)
                     (reviews database))
      else (Raise (DataError "nextval: reached maximum value of sequence"), database)
  end.
Proof.
  intros Hk. unfold route_add_book, get_db, add_book.
  generalize (Book.parse_obj body); intros book. cbv zeta.
  unfold mbind, db_add, track, db_commit, db_refresh, ret, response_Book,
    getattrs_book, lift.
  cbn [SessionLocal identity_map engine nth_error List.length app flush flush_obj rbind].
  fold (new_book book).
  destruct (bind_book (new_book book)) as [[]|e]; [|reflexivity].
  cbn [rbind]. unfold table_insert.
  destruct (id_seq (books database) + 1 <=? int4_max); [|reflexivity].
  cbn [rbind identity_map engine nth_error reviews books].
  unfold table_get. cbn [rows new_book BookModel.set_id BookModel.id BookModel.title
    BookModel.author BookModel.genre BookModel.year_published BookModel.summary].
  rewrite find_app_fresh by (apply keys_below_fresh; exact Hk).
  cbn [find BookModel.id BookModel.set_id column_eq]. rewrite Z.eqb_refl.
  unfold mbind. cbn [set_nth firstn skipn app nth_error engine identity_map].
  change (BookModel.set_id (id_seq (books database) + 1) (new_book book))
    with (stored_book (id_seq (books database) + 1) book).
  destruct (Book_from_orm (stored_book (id_seq (books database) + 1) book)); reflexivity.
Qed.

(** [PUT /books/{id}] *)
Lemma route_update_book_eq (id : Z) (body : Book.body) (database : Database) :
  route_update_book id body database =
  match book_with id database with
  | None => (Raise Book_not_found, database)
  | Some b =>
      let row := updated_book b (Book.parse_obj body) in
      match bind_book row with
      | Raise e => (Raise e, database)
      | Return _ =>
          (Book_from_orm row,
           mk_database (table_update BookModel.id row (books database))
                       (reviews database))
      end
  end.
Proof.
  unfold route_update_book, get_db, update_book.
  generalize (Book.parse_obj body); intros book.
  unfold mbind at 1 2. rewrite query_books_first_run.
  cbn [SessionLocal engine identity_map List.length app]. unfold book_with.
  destruct (find (id_is id) (rows (books database))) as [b|] eqn:Hb; [|reflexivity].
  pose proof (find_some_key _ _ _ Hb) as Hkey.
  pose proof (find_existsb _ _ _ Hb) as Hex.
  unfold mbind, setattr_book, db_commit, db_refresh, ret, response_Book,
    getattrs_book, lift.
  cbn [identity_map engine nth_error set_nth firstn skipn app modified flush flush_obj
       rbind BookModel.set_title BookModel.set_author BookModel.set_genre
       BookModel.set_year_published BookModel.set_summary
       BookModel.id BookModel.title BookModel.author BookModel.genre
       BookModel.year_published BookModel.summary].
  change (BookModel.set_summary _ _) with (updated_book b book). cbv zeta.
  destruct (bind_book (updated_book b book)) as [[]|e]; [|reflexivity].
  cbn [rbind identity_map engine nth_error updated_book BookModel.id books].
  rewrite Hkey. unfold table_get, table_update. cbn [rows].
  fold (updated_book b book).
  rewrite (find_table_update BookModel.id _ id) by (first [exact Hkey | exact Hex]).
  unfold mbind. cbn [set_nth firstn skipn app nth_error engine identity_map].
  destruct (Book_from_orm (updated_book b book)); reflexivity.
Qed.

(** [GET /books/{id}/summary] *)
Lemma route_get_summary_eq (invoke : string -> string) (id : Z) (database : Database) :
  route_get_summary invoke id database =
  (match book_with id database with
   | None => Raise Book_not_found
   | Some _ =>
       match reviews_for id database with
       | [] => Raise No_reviews_found
       | found =>
           rbind (true_div (sum (map ReviewModel.rating found)) (len found))
                 (fun average_rating =>
           Return (Summary.mk
                     (invoke (summary_prompt (map ReviewModel.review_text found)))
                     average_rating))
       end
   end, database).
Proof.
  unfold route_get_summary, get_db, get_summary, book_with, reviews_for.
  unfold mbind at 1. rewrite query_books_first_run.
  cbn [SessionLocal engine identity_map List.length app].
  destruct (find (id_is id) (rows (books database))) as [b|]; [|reflexivity].
  unfold mbind at 1. rewrite query_reviews_all_run.
  cbn [engine identity_map List.length app].
  destruct (filter (book_id_is id) (rows (reviews database))) as [|x found];
    [reflexivity|].
  pose proof (mapM_loaded_after OReview getattrs_review (fun x => Return x)
                getattrs_review_loaded (x :: found) [(Persistent, OBook b)] database)
    as H.
  cbv zeta in H. cbn [List.length seq app] in H. cbn [List.length seq].
  unfold mbind at 1. rewrite H.
  rewrite (traverse_Return (fun x => x)), map_id.
  unfold mbind, lift, ret, len.
  cbn [List.length]. rewrite length_seq.
  destruct (true_div _ _); reflexivity.
Qed.

(** The recommendations handler, whatever reads the objects it returns. *)
Lemma get_recommendations_eq {B} (f : ref -> M B) (g : BookModel.t -> Result B)
      (version : SQLAlchemy) (invoke : string -> string) (database : Database) :
  (forall db r st x,
      nth_error (identity_map db) r = Some (st, OBook x) -> f r db = (g x, db)) ->
  get_db (books <- get_recommendations version invoke ;; mapM f books) database =
  (match rows (books database) with
   | [] => Raise No_books_found
   | stored =>
       rbind (join_optional ", " (map BookModel.summary stored)) (fun summaries =>
         let response :=
           invoke (recommendation_prompt (map BookModel.title stored) summaries) in
         rbind (in_ version response) (fun title_in_response =>
         rbind (bind_text response) (fun _ =>
         traverse (map g (filter (fun b => title_in_response (BookModel.title b))
                                 stored)))))
   end, database).
Proof.
  intros Hf.
  unfold get_db, get_recommendations.
  unfold mbind at 1 2. rewrite query_books_all_run.
  cbn [SessionLocal engine identity_map List.length app]. rewrite filter_true.
  destruct (rows (books database)) as [|b stored] eqn:Hrows; [reflexivity|].
  pose proof (mapM_loaded_after OBook getattrs_book (fun x => Return x)
                getattrs_book_loaded (b :: stored) [] database) as H.
  cbv zeta in H. cbn [List.length seq app] in H. cbn [List.length seq].
  unfold mbind at 1. rewrite H.
  rewrite (traverse_Return (fun x => x)), map_id.
  unfold mbind at 1. unfold lift at 1.
  destruct (join_optional ", " (map BookModel.summary (b :: stored))) as [summaries|e];
    [|reflexivity].
  cbn [rbind]. cbv zeta.
  unfold mbind at 1. unfold lift at 1.
  destruct (in_ version _) as [title_in_response|e]; [|reflexivity].
  cbn [rbind].
  unfold mbind at 1. unfold lift at 1.
  destruct (bind_text _) as [[]|e]; [|reflexivity].
  unfold mbind at 1. rewrite query_books_all_run.
  cbn [engine identity_map rbind]. unfold ret at 1. rewrite Hrows.
  set (chosen := filter _ (b :: stored)).
  pose proof (mapM_loaded_after OBook f g Hf chosen
                (map (fun row => (Persistent, OBook row)) (b :: stored)) database) as H'.
  cbv zeta in H'. rewrite H'. reflexivity.
Qed.

(** ** Keys and the invariant *)

Lemma well_formed_empty : well_formed empty_database.
Proof. split; constructor. Qed.

Lemma keys_below_insert {T} (pk : T -> option Z) (x : T) (tbl : Table T) :
  pk x = Some (id_seq tbl + 1) ->
  keys_below pk tbl ->
  keys_below pk (mk_table (rows tbl ++ [x])%list (id_seq tbl + 1)).
Proof.
  intros Hx Hk. unfold keys_below in *. cbn [rows id_seq].
  rewrite Forall_app. split.
  - eapply Forall_impl; [|exact Hk]. cbv beta.
    intros r [k [Hr Hle]]. exists k. split; [exact Hr | lia].
  - constructor; [|constructor]. exists (id_seq tbl + 1).
    split; [exact Hx | lia].
Qed.

Lemma keys_below_update {T} (pk : T -> option Z) (x : T) (tbl : Table T) :
  (exists r, In r (rows tbl) /\ pk r = pk x) ->
  keys_below pk tbl -> keys_below pk (table_update pk x tbl).
Proof.
  intros [r0 [Hin Hpk]] Hk. unfold keys_below, table_update in *. simpl.
  rewrite Forall_forall in *. intros r Hr.
  apply in_map_iff in Hr. destruct Hr as [r' [Hr' Hin']].
  destruct (same_key pk x r'); subst r.
  - rewrite <- Hpk. apply Hk. exact Hin.
  - apply Hk. exact Hin'.
Qed.

Lemma keys_below_delete {T} (pk : T -> option Z) (x : T) (tbl : Table T) :
  keys_below pk tbl -> keys_below pk (table_delete pk x tbl).
Proof.
  intros Hk. unfold keys_below, table_delete in *. simpl.
  rewrite Forall_forall in *. intros r Hr.
  apply filter_In in Hr. apply Hk. apply Hr.
Qed.

Lemma book_with_table_update (id : Z) (b : BookModel.t) (book : Book.t)
      (database : Database) :
  book_with id database = Some b ->
  find (id_is id)
       (rows (table_update BookModel.id (updated_book b book) (books database)))
  = Some (updated_book b book).
Proof.
  intros Hb. unfold table_update. cbn [rows].
  apply (find_table_update BookModel.id (updated_book b book) id).
  - cbn [updated_book BookModel.id]. exact (find_some_key _ _ _ Hb).
  - exact (find_existsb _ _ _ Hb).
Qed.

Lemma join_optional_None (sep : string) (l : list (option string)) :
  In None l ->
  join_optional sep l =
  Raise (TypeError "sequence item: expected str instance, NoneType found").
Proof.
  induction l as [|[x|] l IH]; intros Hin.
  - destruct Hin.
  - destruct Hin as [Hx|Hin]; [discriminate|].
    specialize (IH Hin). cbn [join_optional]. rewrite IH.
    destruct l; [destruct Hin | reflexivity].
  - reflexivity.
Qed.

Lemma route_add_review_absent (id : Z) (review : Review.t) (database : Database) :
  book_with id database = None ->
  route_add_review id review database = (Raise Book_not_found, database).
Proof.
  intros Hb. unfold route_add_review, get_db, add_review.
  unfold mbind at 1 2. rewrite query_books_first_run.
  cbn [SessionLocal engine]. unfold book_with in Hb. rewrite Hb. reflexivity.
Qed.

(** ** Sums and means *)

Lemma sum_from (l : list Z) (a : Z) : fold_left Z.add l a = a + fold_right Z.add 0 l.
Proof.
  revert a. induction l as [|x l IH]; intros a; simpl; [lia|].
  rewrite IH. lia.
Qed.

Lemma sum_fold_right (l : list Z) : sum l = fold_right Z.add 0 l.
Proof. unfold sum. rewrite sum_from. lia. Qed.

Lemma sum_Permutation (l l' : list Z) : Permutation l l' -> sum l = sum l'.
Proof.
  intros H. rewrite !sum_fold_right.
  induction H as [|x l l' _ IH|x y l|l l' l'' _ IH1 _ IH2]; simpl; lia.
Qed.

Lemma len_Permutation {A} (l l' : list A) : Permutation l l' -> len l = len l'.
Proof. intros H. unfold len. rewrite (Permutation_length H). reflexivity. Qed.

(** ** Division of integers into a float *)

Lemma round_half_even_spec (num den : Z) :
  0 < den -> 0 <= num ->
  let m := round_half_even num den in
  2 * Z.abs (m * den - num) <= den /\ num / den <= m <= num / den + 1.
Proof.
  intros Hden Hnum. unfold round_half_even.
  pose proof (Z.div_mod num den ltac:(lia)) as Hdm.
  pose proof (Z.mod_pos_bound num den Hden) as Hr.
  set (q := num / den) in *. set (r := num mod den) in *.
  destruct ((den <? 2 * r) || ((2 * r =? den) && Z.odd q)) eqn:Hup.
  - split; [|lia].
    apply orb_true_iff in Hup. destruct Hup as [Hup|Hup].
    + apply Z.ltb_lt in Hup. nia.
    + apply andb_true_iff in Hup. destruct Hup as [Hup _].
      apply Z.eqb_eq in Hup. nia.
  - split; [|lia].
    apply orb_false_iff in Hup. destruct Hup as [Hup _].
    apply Z.ltb_ge in Hup. nia.
Qed.

Lemma pow2_pos (n : Z) : 0 < 2 ^ n \/ n < 0.
Proof. destruct (Z.le_gt_cases 0 n); [left; apply Z.pow_pos_nonneg; lia | right; lia]. Qed.

Lemma log2_bounds (A : Z) : 0 < A -> 2 ^ Z.log2 A <= A < 2 * 2 ^ Z.log2 A.
Proof.
  intros HA. pose proof (Z.log2_spec A HA) as H.
  rewrite Z.pow_succ_r in H by apply Z.log2_nonneg. lia.
Qed.

(** The exponent chosen brackets the quotient. *)
Lemma quotient_exponent (A B : Z) :
  0 < A -> 0 < B ->
  let L := floor_log2_quotient A B in
  let lb := Z.log2 B in
  0 <= L + lb + 1 /\
  B * 2 ^ (L + lb + 1) <= A * 2 ^ (lb + 1) /\
  A * 2 ^ lb < B * 2 ^ (L + lb + 1) /\
  L <= Z.log2 A.
Proof.
  intros HA HB. unfold floor_log2_quotient. cbv zeta.
  set (la := Z.log2 A). set (lb := Z.log2 B).
  pose proof (log2_bounds A HA) as HlA. pose proof (log2_bounds B HB) as HlB.
  fold la in HlA. fold lb in HlB.
  assert (Hla : 0 <= la) by apply Z.log2_nonneg.
  assert (Hlb : 0 <= lb) by apply Z.log2_nonneg.
  assert (PA : 0 < 2 ^ la) by (apply Z.pow_pos_nonneg; lia).
  assert (PB : 0 < 2 ^ lb) by (apply Z.pow_pos_nonneg; lia).
  destruct (B * 2 ^ la <=? A * 2 ^ lb) eqn:Hc.
  - apply Z.leb_le in Hc.
    replace (la - lb + lb + 1) with (la + 1) by lia.
    rewrite !Z.pow_add_r by lia. rewrite Z.pow_1_r.
    repeat split; try lia; nia.
  - apply Z.leb_gt in Hc.
    replace (la - lb - 1 + lb + 1) with la by lia.
    rewrite !Z.pow_add_r by lia. rewrite Z.pow_1_r.
    repeat split; try lia; nia.
Qed.

Lemma pow2_shift (E : Z) :
  0 <= E -> (Float.pow2 (E - 1074) == Qmake (2 ^ E) (Z.to_pos (2 ^ 1074)))%Q.
Proof.
  intros HE. unfold Float.pow2, Qeq. cbn [Qnum Qden].
  assert (P : 0 < 2 ^ 1074) by (apply Z.pow_pos_nonneg; lia).
  rewrite !Z2Pos.id; try (apply Z.pow_pos_nonneg; lia).
  destruct (Z.le_gt_cases 1074 E).
  - rewrite (Z.max_r 0 (E - 1074)) by lia. rewrite (Z.max_l 0 (- (E - 1074))) by lia.
    rewrite Z.pow_0_r, Z.mul_1_r. rewrite <- Z.pow_add_r by lia. f_equal. lia.
  - rewrite (Z.max_l 0 (E - 1074)) by lia. rewrite (Z.max_r 0 (- (E - 1074))) by lia.
    rewrite Z.pow_0_r, Z.mul_1_l. rewrite <- Z.pow_add_r by lia. f_equal. lia.
Qed.

(** Lifting an integer error bound to the rationals. *)
Lemma error_bound_Q (X D a b U : Z) :
  0 < D -> 0 < b ->
  2 * Z.abs (X * b - a * D) <= U * b ->
  (Qabs (Qmake X (Z.to_pos D) - Qmake a (Z.to_pos b)) * 2 <= Qmake U (Z.to_pos D))%Q.
Proof.
  intros HD Hb H.
  assert (Hq : (Qabs (Qmake X (Z.to_pos D) - Qmake a (Z.to_pos b))
                <= Qmake U (Z.to_pos (2 * D)))%Q).
  { apply Qabs_Qle_condition.
    unfold Qle, Qminus, Qplus, Qopp. cbn [Qnum Qden].
    rewrite !Pos2Z.inj_mul, !Z2Pos.id by lia. split; nia. }
  eapply Qle_trans; [apply Qmult_le_compat_r; [exact Hq | discriminate]|].
  unfold Qle, Qmult. cbn [Qnum Qden].
  rewrite !Pos2Z.inj_mul, !Z2Pos.id by lia. nia.
Qed.

(** What the division returns, when it does. *)
Lemma true_div_unfold (a b : Z) (f : Float.t) :
  0 < b ->
  true_div a b = Return f ->
  let E := last_place (Z.abs a) b in
  let m := significand (Z.abs a) b in
  (a = 0 /\ f = Float.mk false 0 (-1074)) \/
  (a <> 0 /\
   f = Float.mk (a <? 0) (if m =? 2 ^ 53 then 2 ^ 52 else m)
                ((if m =? 2 ^ 53 then E + 1 else E) - 1074) /\
   (if m =? 2 ^ 53 then E + 1 else E) - 1074 <= 971).
Proof.
  intros Hb Hf E m. unfold true_div in Hf.
  destruct (Z.eqb_spec b 0) as [->|_]; [lia|].
  replace (b <? 0) with false in Hf by (symmetry; apply Z.ltb_ge; lia).
  rewrite xorb_false_r in Hf.
  replace (Z.abs b) with b in Hf by lia.
  destruct (Z.eqb_spec (Z.abs a) 0) as [Ha|Ha].
  - left. assert (a = 0) by lia. subst a. split; [reflexivity|].
    cbn in Hf. injection Hf as <-. reflexivity.
  - right. split; [lia|]. cbv zeta in Hf. fold E m in Hf.
    destruct (971 <? (if m =? 2 ^ 53 then E + 1 else E) - 1074) eqn:Hover;
      [discriminate|].
    apply Z.ltb_ge in Hover. injection Hf as <-. split; [reflexivity | exact Hover].
Qed.

Lemma significand_spec (A B : Z) :
  0 < A -> 0 < B ->
  let E := last_place A B in
  let m := significand A B in
  0 <= E /\ 0 < B * 2 ^ E /\
  2 * Z.abs (m * (B * 2 ^ E) - A * 2 ^ 1074) <= B * 2 ^ E /\
  (A * 2 ^ 1074) / (B * 2 ^ E) <= m <= (A * 2 ^ 1074) / (B * 2 ^ E) + 1.
Proof.
  intros HA HB E m.
  assert (HE : 0 <= E) by (unfold E, last_place; lia).
  assert (PE : 0 < 2 ^ E) by (apply Z.pow_pos_nonneg; lia).
  assert (Hden : 0 < B * 2 ^ E) by nia.
  assert (Hnum : 0 <= A * 2 ^ 1074).
  { apply Z.mul_nonneg_nonneg; [lia | apply Z.pow_nonneg; lia]. }
  pose proof (round_half_even_spec _ _ Hden Hnum) as H. cbv zeta in H.
  fold E in H. change (round_half_even (A * 2 ^ 1074) (B * 2 ^ E)) with m in H.
  destruct H as [H1 H2]. repeat split; try assumption; lia.
Qed.

(** The float returned is within half a unit in its last place of the
    quotient. *)
Lemma true_div_half_ulp (a b : Z) (f : Float.t) :
  0 < b ->
  true_div a b = Return f ->
  (Qabs (Float.to_Q f - Qmake a (Z.to_pos b)) * 2 <= Float.ulp f)%Q.
Proof.
  intros Hb Hf.
  assert (P : 0 < 2 ^ 1074) by (apply Z.pow_pos_nonneg; lia).
  pose proof (true_div_unfold a b f Hb Hf) as Hcases. cbv zeta in Hcases.
  set (E := last_place (Z.abs a) b) in *. set (m := significand (Z.abs a) b) in *.
  destruct Hcases as [[Ha ->]|[Ha [-> _]]].
  - subst a. unfold Float.to_Q, Float.ulp.
    cbn [Float.negative Float.mantissa Float.exponent].
    unfold Float.pow2, Qle, Qabs, Qminus, Qplus, Qopp, Qmult. cbn. lia.
  - assert (HA : 0 < Z.abs a) by lia.
    pose proof (significand_spec (Z.abs a) b HA Hb) as Hspec. cbv zeta in Hspec.
    fold E m in Hspec. destruct Hspec as [HE [Hden [Herr _]]].
    unfold Float.to_Q, Float.ulp. cbn [Float.negative Float.mantissa Float.exponent].
    set (E' := if m =? 2 ^ 53 then E + 1 else E).
    set (m' := if m =? 2 ^ 53 then 2 ^ 52 else m).
    assert (HE' : 0 <= E') by (unfold E'; destruct (m =? 2 ^ 53); lia).
    assert (Hval : m' * 2 ^ E' = m * 2 ^ E).
    { unfold m', E'. destruct (Z.eqb_spec m (2 ^ 53)) as [Hm|_]; [|reflexivity].
      rewrite Hm, Z.pow_add_r by lia. change (2 ^ 53) with (2 ^ 52 * 2). lia. }
    assert (Hulp : 2 ^ E <= 2 ^ E').
    { apply Z.pow_le_mono_r; [lia|]. unfold E'. destruct (m =? 2 ^ 53); lia. }
    rewrite (pow2_shift E' HE').
    set (X := (if a <? 0 then - m' else m') * 2 ^ E').
    assert (HX : (inject_Z (if a <? 0 then - m' else m') *
                  Qmake (2 ^ E') (Z.to_pos (2 ^ 1074))
                  == Qmake X (Z.to_pos (2 ^ 1074)))%Q).
    { unfold Qeq, Qmult, inject_Z. cbn [Qnum Qden]. subst X. reflexivity. }
    rewrite HX.
    apply error_bound_Q; [exact P | exact Hb |].
    assert (Hcore : Z.abs (X * b - a * 2 ^ 1074)
                    = Z.abs (m * (b * 2 ^ E) - Z.abs a * 2 ^ 1074)).
    { subst X. destruct (Z.ltb_spec a 0).
      - replace (- m' * 2 ^ E' * b - a * 2 ^ 1074)
          with (- (m' * 2 ^ E' * b - Z.abs a * 2 ^ 1074)) by lia.
        rewrite Z.abs_opp, Hval. f_equal. lia.
      - rewrite Hval. f_equal. lia. }
    rewrite Hcore. eapply Z.le_trans; [exact Herr|].
    rewrite (Z.mul_comm b). apply Z.mul_le_mono_nonneg_r; lia.
Qed.

(** The float returned is a normalised 53-bit float. *)
Lemma true_div_binary64 (a b : Z) (f : Float.t) :
  0 < b ->
  true_div a b = Return f ->
  Float.binary64 f.
Proof.
  intros Hb Hf.
  assert (P : 0 < 2 ^ 1074) by (apply Z.pow_pos_nonneg; lia).
  pose proof (true_div_unfold a b f Hb Hf) as Hcases. cbv zeta in Hcases.
  set (E := last_place (Z.abs a) b) in *. set (m := significand (Z.abs a) b) in *.
  destruct Hcases as [[Ha ->]|[Ha [-> Hrange]]].
  - unfold Float.binary64. cbn. lia.
  - set (A := Z.abs a) in *.
    assert (HA : 0 < A) by (unfold A; lia).
    pose proof (significand_spec A b HA Hb) as Hspec. cbv zeta in Hspec.
    fold E m in Hspec. destruct Hspec as [HE [Hden [_ Hm]]].
    pose proof (quotient_exponent A b HA Hb) as Hq. cbv zeta in Hq.
    set (L := floor_log2_quotient A b) in *. set (lb := Z.log2 b) in *.
    destruct Hq as [Hoff [Hlow [Hupp _]]].
    assert (Hlb : 0 <= lb) by apply Z.log2_nonneg.
    assert (PB : 0 < 2 ^ lb) by (apply Z.pow_pos_nonneg; lia).
    assert (PE : 0 < 2 ^ E) by (apply Z.pow_pos_nonneg; lia).
    assert (HEL : E = Z.max (L + 1022) 0) by reflexivity.
    (* the quotient is below 2^53 *)
    assert (Hq_upper : A * 2 ^ 1074 / (b * 2 ^ E) < 2 ^ 53).
    { apply Z.div_lt_upper_bound; [exact Hden|].
      assert (Hmono : 2 ^ (L + lb + 1) * 2 ^ 1074 <= 2 ^ E * 2 ^ 53 * 2 ^ lb).
      { rewrite <- !Z.pow_add_r by lia. apply Z.pow_le_mono_r; lia. }
      assert (Hstep : A * 2 ^ 1074 * 2 ^ lb < b * 2 ^ E * 2 ^ 53 * 2 ^ lb) by nia.
      nia. }
    (* and at least 2^52 when the exponent is not the least *)
    assert (Hq_lower : 0 < E -> 2 ^ 52 <= A * 2 ^ 1074 / (b * 2 ^ E)).
    { intros Hpos. apply Z.div_le_lower_bound; [exact Hden|].
      assert (Hmono : 2 ^ E * 2 ^ 52 * 2 ^ (lb + 1) = 2 ^ (L + lb + 1) * 2 ^ 1074).
      { rewrite <- !Z.pow_add_r by lia. f_equal. lia. }
      assert (P1 : 0 < 2 ^ (lb + 1)) by (apply Z.pow_pos_nonneg; lia).
      nia. }
    unfold Float.binary64. cbn [Float.mantissa Float.exponent].
    assert (Hm_nonneg : 0 <= m).
    { assert (Hn : 0 <= A * 2 ^ 1074) by nia.
      pose proof (Z.div_pos (A * 2 ^ 1074) (b * 2 ^ E) Hn Hden). lia. }
    destruct (Z.eqb_spec m (2 ^ 53)) as [Hm53|Hm53].
    + split; [lia|]. split; [lia|]. left. lia.
    + split; [lia|]. split; [lia|].
      destruct (Z.eq_dec E 0) as [HE0|HE0]; [right; lia|].
      left. assert (Hpos : 0 < E) by lia. specialize (Hq_lower Hpos). lia.
Qed.

(** Dividing a total below [2^1023] never overflows. *)
Lemma true_div_returns (a b : Z) :
  0 < b -> Z.abs a < 2 ^ 1023 -> exists f, true_div a b = Return f.
Proof.
  intros Hb Ha. unfold true_div.
  destruct (Z.eqb_spec b 0) as [->|_]; [lia|].
  destruct (Z.eqb_spec (Z.abs a) 0) as [_|Hnz]; [eexists; reflexivity|].
  cbv zeta. replace (Z.abs b) with b by lia.
  set (E := last_place (Z.abs a) b). set (m := significand (Z.abs a) b).
  assert (HA : 0 < Z.abs a) by lia.
  pose proof (quotient_exponent (Z.abs a) b HA Hb) as Hq. cbv zeta in Hq.
  destruct Hq as [_ [_ [_ HL]]].
  assert (Hla : Z.log2 (Z.abs a) < 1023) by (apply Z.log2_lt_pow2; lia).
  assert (HE : E <= 2044) by (unfold E, last_place; lia).
  destruct (971 <? (if m =? 2 ^ 53 then E + 1 else E) - 1074) eqn:Hover;
    [|eexists; reflexivity].
  apply Z.ltb_lt in Hover. destruct (m =? 2 ^ 53); lia.
Qed.

(** A quotient that is an integer below [2^53] in magnitude is a float:
    the division returns it exactly. *)
Lemma true_div_exact (q b : Z) :
  0 < b -> Z.abs q < 2 ^ 53 ->
  exists f, true_div (q * b) b = Return f /\ (Float.to_Q f == inject_Z q)%Q.
Proof.
  intros Hb Hq. unfold true_div.
  destruct (Z.eqb_spec b 0) as [->|_]; [lia|].
  replace (b <? 0) with false by (symmetry; apply Z.ltb_ge; lia).
  rewrite xorb_false_r.
  destruct (Z.eqb_spec (Z.abs (q * b)) 0) as [Hzero|Hnz].
  - assert (q = 0) by nia. subst q.
    eexists. split; [reflexivity|].
    unfold Float.to_Q. cbn [Float.negative Float.mantissa]. 
    change (0 * b <? 0) with (0 <? 0). cbn [Z.ltb Z.compare].
    apply Qmult_0_l.
  - cbv zeta.
    assert (Hq0 : q <> 0) by (intros ->; apply Hnz; reflexivity).
    set (Q' := Z.abs q) in *.
    assert (HQ : 1 <= Q') by (unfold Q'; lia).
    assert (HA : Z.abs (q * b) = Q' * b) by (unfold Q'; rewrite Z.abs_mul; lia).
    assert (HB : Z.abs b = b) by lia.
    rewrite HA, HB. unfold significand, last_place.
    assert (HAB : 0 < Q' * b) by nia.
    pose proof (quotient_exponent (Q' * b) b HAB Hb) as Hq'. cbv zeta in Hq'.
    set (L := floor_log2_quotient (Q' * b) b) in *. set (lb := Z.log2 b) in *.
    destruct Hq' as [Hoff [Hlow [Hupp _]]].
    assert (Hlb : 0 <= lb) by apply Z.log2_nonneg.
    assert (PB : 0 < 2 ^ lb) by (apply Z.pow_pos_nonneg; lia).
    (* 2^L <= |q| < 2^(L+1), with 0 <= L <= 52 *)
    assert (HL0 : 0 <= L).
    { destruct (Z.le_gt_cases 0 L) as [H|H]; [exact H|]. exfalso.
      assert (Hle : 2 ^ (L + lb + 1) <= 2 ^ lb) by (apply Z.pow_le_mono_r; lia).
      nia. }
    assert (PL : 0 < 2 ^ L) by (apply Z.pow_pos_nonneg; lia).
    assert (HQlow : 2 ^ L <= Q').
    { replace (L + lb + 1) with (L + (lb + 1)) in Hlow by lia.
      rewrite Z.pow_add_r in Hlow by lia.
      assert (P1 : 0 < 2 ^ (lb + 1)) by (apply Z.pow_pos_nonneg; lia).
      nia. }
    assert (HQupp : Q' < 2 ^ (L + 1)).
    { replace (L + lb + 1) with ((L + 1) + lb) in Hupp by lia.
      rewrite Z.pow_add_r in Hupp by lia. nia. }
    assert (HL52 : L <= 52).
    { destruct (Z.le_gt_cases L 52) as [H|H]; [exact H|]. exfalso.
      assert (2 ^ 53 <= 2 ^ L) by (apply Z.pow_le_mono_r; lia). lia. }
    replace (Z.max (L + 1022) 0) with (L + 1022) by lia.
    set (E := L + 1022).
    set (S := 2 ^ (52 - L)).
    assert (PS : 0 < S) by (apply Z.pow_pos_nonneg; lia).
    assert (PE : 0 < 2 ^ E) by (apply Z.pow_pos_nonneg; unfold E; lia).
    assert (Hsplit : 2 ^ 1074 = S * 2 ^ E).
    { unfold S, E. rewrite <- Z.pow_add_r by lia. f_equal. lia. }
    assert (Hnum : Q' * b * 2 ^ 1074 = Q' * S * (b * 2 ^ E)) by (rewrite Hsplit; ring).
    assert (Hden : 0 < b * 2 ^ E) by exact (Z.mul_pos_pos _ _ Hb PE).
    assert (Hround : round_half_even (Q' * b * 2 ^ 1074) (b * 2 ^ E) = Q' * S).
    { unfold round_half_even. rewrite Hnum.
      rewrite Z.div_mul by lia. rewrite Z.mod_mul by lia.
      replace (b * 2 ^ E <? 2 * 0) with false by (symmetry; apply Z.ltb_ge; lia).
      replace (2 * 0 =? b * 2 ^ E) with false by (symmetry; apply Z.eqb_neq; lia).
      reflexivity. }
    rewrite Hround.
    assert (Hm : Q' * S < 2 ^ 53).
    { assert (H53 : 2 ^ 53 = 2 ^ (L + 1) * S).
      { unfold S. rewrite <- Z.pow_add_r by lia. f_equal. lia. }
      rewrite H53. apply Z.mul_lt_mono_pos_r; [exact PS | exact HQupp]. }
    replace (Q' * S =? 2 ^ 53) with false by (symmetry; apply Z.eqb_neq; lia).
    replace (971 <? E - 1074) with false by (symmetry; apply Z.ltb_ge; unfold E; lia).
    eexists. split; [reflexivity|].
    replace (q * b <? 0) with (q <? 0).
    2:{ destruct (Z.ltb_spec q 0); symmetry; [apply Z.ltb_lt | apply Z.ltb_ge]; nia. }
    unfold Float.to_Q, Float.pow2.
    cbn [Float.negative Float.mantissa Float.exponent].
    replace (E - 1074) with (- (52 - L)) by (unfold E; lia).
    rewrite Z.opp_involutive.
    rewrite (Z.max_l 0 (- (52 - L))) by lia. rewrite (Z.max_r 0 (52 - L)) by lia.
    fold S. unfold Qeq, Qmult, inject_Z. cbn [Qnum Qden].
    rewrite Z.pow_0_r, Pos.mul_1_l, Z2Pos.id by exact PS.
    unfold Q'. destruct (Z.ltb_spec q 0); lia.
Qed.

Lemma true_quotient_is_mean (l : list Z) :
  l <> [] -> (Qmake (sum l) (Z.to_pos (len l)) == arithmetic_mean l)%Q.
Proof.
  intros Hl. unfold arithmetic_mean. rewrite <- sum_fold_right. fold (len l).
  assert (Hpos : 0 < len l).
  { unfold len. destruct l; [contradiction|]. simpl. lia. }
  unfold Qdiv, Qmult, Qinv, Qeq, inject_Z. simpl.
  destruct (len l) as [|p|p] eqn:E; try lia. simpl. lia.
Qed.

Lemma len_pos {A} (l : list A) : l <> [] -> 0 < len l.
Proof. intros Hl. unfold len. destruct l; [contradiction|]. simpl. lia. Qed.

Lemma len_map {A B} (f : A -> B) (l : list A) : len (map f l) = len l.
Proof. unfold len. rewrite length_map. reflexivity. Qed.

(** The float that dividing a total by a count gives is the mean, rounded. *)
Lemma true_div_rounded_mean (l : list Z) (f : Float.t) :
  l <> [] ->
  true_div (sum l) (len l) = Return f ->
  Float.binary64 f /\
  (Qabs (Float.to_Q f - arithmetic_mean l) * 2 <= Float.ulp f)%Q.
Proof.
  intros Hne Hf. split.
  - exact (true_div_binary64 _ _ _ (len_pos _ Hne) Hf).
  - rewrite <- (true_quotient_is_mean l Hne).
    exact (true_div_half_ulp _ _ _ (len_pos _ Hne) Hf).
Qed.

(** The summary route answers when the book has reviews and their total is
    within the floats. *)
Lemma route_get_summary_returns
      (invoke : string -> string) (id : Z) (database : Database) :
  book_with id database <> None ->
  reviews_for id database <> [] ->
  Z.abs (total (map ReviewModel.rating (reviews_for id database))) < 2 ^ 1023 ->
  exists s,
    route_get_summary invoke id database = (Return s, database) /\
    true_div (sum (map ReviewModel.rating (reviews_for id database)))
             (len (map ReviewModel.rating (reviews_for id database)))
    = Return (Summary.rating s).
Proof.
  intros Hbook Hrev Htotal.
  rewrite route_get_summary_eq.
  destruct (book_with id database) as [b|] eqn:Hb; [clear Hbook|contradiction].
  destruct (reviews_for id database) as [|x found] eqn:Hfound; [contradiction|].
  cbv beta iota zeta.
  set (ratings := map ReviewModel.rating (x :: found)) in *.
  assert (Hne : ratings <> []) by discriminate.
  assert (Hlen : len (x :: found) = len ratings) by (symmetry; apply len_map).
  rewrite Hlen.
  unfold total in Htotal. rewrite <- sum_fold_right in Htotal.
  destruct (true_div_returns (sum ratings) (len ratings) (len_pos _ Hne) Htotal)
    as [f Hf].
  rewrite Hf. cbn [rbind].
  eexists. split; [reflexivity | reflexivity].
Qed.

(** The rating depends on the stored ratings only, and not on their order. *)
Lemma route_get_summary_same_ratings
      (invoke : string -> string) (id : Z) (database database' : Database) :
  book_with id database <> None ->
  book_with id database' <> None ->
  Permutation (map ReviewModel.rating (reviews_for id database))
              (map ReviewModel.rating (reviews_for id database')) ->
  rating_of (fst (route_get_summary invoke id database))
  = rating_of (fst (route_get_summary invoke id database')).
Proof.
  intros Hbook Hbook' Hperm.
  rewrite !route_get_summary_eq. cbn [fst].
  destruct (book_with id database); [|contradiction].
  destruct (book_with id database'); [|contradiction].
  destruct (reviews_for id database) as [|x found];
    destruct (reviews_for id database') as [|x' found'].
  - reflexivity.
  - apply Permutation_nil in Hperm. discriminate.
  - apply Permutation_sym, Permutation_nil in Hperm. discriminate.
  - rewrite <- (len_map ReviewModel.rating (x :: found)).
    rewrite <- (len_map ReviewModel.rating (x' :: found')).
    rewrite (sum_Permutation _ _ Hperm), (len_Permutation _ _ Hperm).
    unfold rating_of. destruct (true_div _ _); reflexivity.
Qed.

(** ** What the database takes *)

Lemma rbind_Return {A B} (r : Result A) (k : A -> Result B) (b : B) :
  rbind r k = Return b -> exists a, r = Return a /\ k a = Return b.
Proof. destruct r as [a|e]; [|discriminate]. intros H. exists a. split; [reflexivity | exact H]. Qed.

(** A row the database takes passes the validation of the response. *)
Lemma bind_book_valid (b : BookModel.t) :
  bind_book b = Return tt -> Book_from_orm b = Return (Book_of_row b).
Proof.
  unfold bind_book. intros H.
  do 4 (apply rbind_Return in H; destruct H as [_ [_ H]]).
  apply rbind_Return in H. destruct H as [u [Hyear _]].
  unfold Book_from_orm, Book_of_row.
  destruct (BookModel.year_published b); [reflexivity.. | discriminate].
Qed.

(** The empty string is no year: the database refuses the row, when the
    driver has not refused it already. *)
Lemma bind_book_empty_year (b : BookModel.t) :
  BookModel.year_published b = YearEmptyStr -> exists e, bind_book b = Raise e.
Proof.
  intros Hyear. unfold bind_book. rewrite Hyear.
  destruct (bind_text (BookModel.title b)) as [[]|e]; [|eexists; reflexivity].
  destruct (bind_text (BookModel.author b)) as [[]|e]; [|eexists; reflexivity].
  destruct (bind_optional_text (BookModel.genre b)) as [[]|e]; [|eexists; reflexivity].
  destruct (bind_optional_text (BookModel.summary b)) as [[]|e]; eexists; reflexivity.
Qed.

Lemma bind_review_Return (x : ReviewModel.t) :
  bind_text (ReviewModel.review_text x) = Return tt ->
  index_text (ReviewModel.review_text x) = Return tt ->
  int4 (ReviewModel.user_id x) = true ->
  int4 (ReviewModel.rating x) = true ->
  bind_review x = Return tt.
Proof.
  intros Htext Hindex Huser Hrating. unfold bind_review, bind_integer.
  rewrite Htext, Huser, Hrating. exact Hindex.
Qed.

(** A create the database refuses stores nothing. *)
Lemma route_add_book_refused (body : Book.body) (database : Database) (e : Exception) :
  bind_book (new_book (Book.parse_obj body)) = Raise e ->
  route_add_book body database = (Raise e, database).
Proof.
  unfold route_add_book, get_db, add_book.
  generalize (Book.parse_obj body); intros book He.
  unfold mbind, db_add, track, db_commit.
  cbn [SessionLocal identity_map engine nth_error List.length app flush flush_obj rbind].
  fold (new_book book). rewrite He. reflexivity.
Qed.

(** ** More on lists and tables *)

Lemma find_app {A} (p : A -> bool) (l l' : list A) :
  find p (l ++ l') = match find p l with Some x => Some x | None => find p l' end.
Proof.
  induction l as [|a l IH]; simpl; [reflexivity|].
  destruct (p a); [reflexivity | exact IH].
Qed.

Lemma traverse_length {A B} (g : A -> Result B) (l : list A) (l' : list B) :
  traverse (map g l) = Return l' -> Forall2 (fun a b => g a = Return b) l l'.
Proof.
  revert l'. induction l as [|a l IH]; intros l'; simpl.
  - intros [= <-]. constructor.
  - destruct (g a) as [b|e] eqn:Hg; [|discriminate].
    destruct (traverse (map g l)) as [bs|e]; [|discriminate].
    intros [= <-]. constructor; [exact Hg | apply IH; reflexivity].
Qed.

Lemma Book_from_orm_Return (b : BookModel.t) (book : Book.t) :
  Book_from_orm b = Return book -> book = Book_of_row b.
Proof.
  unfold Book_from_orm, Book_of_row.
  destruct (BookModel.year_published b); intros [= <-]; reflexivity.
Qed.

Lemma Book_from_orm_valid (b : BookModel.t) :
  BookModel.year_published b <> YearEmptyStr ->
  Book_from_orm b = Return (Book_of_row b).
Proof.
  unfold Book_from_orm, Book_of_row.
  destruct (BookModel.year_published b); intros H; [reflexivity.. | contradiction].
Qed.

Lemma find_other_key_update (id id' : Z) (x : BookModel.t) (l : list BookModel.t) :
  BookModel.id x = Some id -> id' <> id ->
  find (id_is id') (map (fun r => if same_key BookModel.id x r then x else r) l)
  = find (id_is id') l.
Proof.
  intros Hx Hne. unfold same_key. rewrite Hx.
  induction l as [|a l IH]; simpl; [reflexivity|].
  destruct (column_eq (BookModel.id a) id) eqn:Ha.
  - apply column_eq_true in Ha.
    unfold id_is at 1 3. rewrite Hx, Ha. simpl.
    destruct (Z.eqb_spec id id') as [->|_]; [contradiction|]. exact IH.
  - destruct (id_is id' a); [reflexivity | exact IH].
Qed.

Lemma find_other_key_delete (id id' : Z) (x : BookModel.t) (l : list BookModel.t) :
  BookModel.id x = Some id -> id' <> id ->
  find (id_is id') (filter (fun r => negb (same_key BookModel.id x r)) l)
  = find (id_is id') l.
Proof.
  intros Hx Hne. unfold same_key. rewrite Hx.
  induction l as [|a l IH]; simpl; [reflexivity|].
  destruct (column_eq (BookModel.id a) id) eqn:Ha; simpl.
  - apply column_eq_true in Ha. unfold id_is at 2. rewrite Ha. simpl.
    destruct (Z.eqb_spec id id') as [->|_]; [contradiction|]. exact IH.
  - destruct (id_is id' a); [reflexivity | exact IH].
Qed.

Lemma table_update_twice {T} (pk : T -> option Z) (x : T) (tbl : Table T) :
  table_update pk x (table_update pk x tbl) = table_update pk x tbl.
Proof.
  unfold table_update. cbn [rows id_seq]. f_equal.
  rewrite map_map. apply map_ext. intros r.
  destruct (same_key pk x r) eqn:Hr; [|rewrite Hr; reflexivity].
  destruct (same_key pk x x); reflexivity.
Qed.

Lemma delete_removes_one {T} (pk : T -> option Z) (x : T) (k : Z) (l : list T) :
  pk x = Some k -> In x l -> NoDup (map pk l) ->
  (List.length (filter (fun r => negb (same_key pk x r)) l) + 1 = List.length l)%nat.
Proof.
  intros Hx. unfold same_key. rewrite Hx.
  induction l as [|a l IH]; intros Hin Hnd; [destruct Hin|].
  simpl in Hnd. inversion Hnd as [|? ? Hnotin Hnd']; subst.
  simpl. destruct (column_eq (pk a) k) eqn:Ha; simpl.
  - apply column_eq_true in Ha.
    assert (Hall : filter (fun r => negb (column_eq (pk r) k)) l = l).
    { clear IH Hin Hnd Hnd'. induction l as [|r l IHl]; simpl; [reflexivity|].
      destruct (column_eq (pk r) k) eqn:Hr; simpl.
      - apply column_eq_true in Hr. exfalso. apply Hnotin. left. congruence.
      - f_equal. apply IHl. intros H. apply Hnotin. right. exact H. }
    rewrite Hall. lia.
  - destruct Hin as [->|Hin].
    + rewrite Hx in Ha. simpl in Ha. rewrite Z.eqb_refl in Ha. discriminate.
    + rewrite <- (IH Hin Hnd'). lia.
Qed.

Lemma unique_keys_insert {T} (pk : T -> option Z) (x : T) (tbl : Table T) :
  pk x = Some (id_seq tbl + 1) ->
  keys_below pk tbl -> unique_keys pk tbl ->
  unique_keys pk (mk_table (rows tbl ++ [x])%list (id_seq tbl + 1)).
Proof.
  intros Hx Hk Hu. unfold unique_keys in *. cbn [rows].
  rewrite map_app. cbn [map]. rewrite Hx.
  apply NoDup_app. repeat split.
  - exact Hu.
  - constructor; [intros [] | constructor].
  - intros k Hin [<-|[]].
    apply in_map_iff in Hin. destruct Hin as [r [Hr Hin]].
    pose proof (keys_below_fresh pk tbl Hk r Hin) as Hfresh.
    rewrite Hr in Hfresh. simpl in Hfresh. rewrite Z.eqb_refl in Hfresh. discriminate.
Qed.

Lemma unique_keys_update {T} (pk : T -> option Z) (x : T) (tbl : Table T) :
  unique_keys pk tbl -> unique_keys pk (table_update pk x tbl).
Proof.
  unfold unique_keys, table_update. cbn [rows]. intros Hu.
  rewrite map_map.
  replace (map (fun r => pk (if same_key pk x r then x else r)) (rows tbl))
    with (map pk (rows tbl)); [exact Hu|].
  apply map_ext. intros r. unfold same_key.
  destruct (pk x) as [k|] eqn:Hx; [|reflexivity].
  destruct (column_eq (pk r) k) eqn:Hr; [|reflexivity].
  apply column_eq_true in Hr. congruence.
Qed.

Lemma unique_keys_delete {T} (pk : T -> option Z) (x : T) (tbl : Table T) :
  unique_keys pk tbl -> unique_keys pk (table_delete pk x tbl).
Proof.
  unfold unique_keys, table_delete. cbn [rows].
  generalize (rows tbl). intros l Hu.
  induction l as [|a l IH]; simpl; [constructor|].
  inversion Hu as [|? ? Hnotin Hu']; subst.
  destruct (negb (same_key pk x a)); simpl; [|apply IH; exact Hu'].
  constructor; [|apply IH; exact Hu'].
  intros Hin. apply Hnotin.
  apply in_map_iff in Hin. destruct Hin as [r [Hr Hin]].
  apply filter_In in Hin. apply in_map_iff. exists r. split; [exact Hr | apply Hin].
Qed.

Lemma traverse_Book_from_orm (l : list BookModel.t) :
  (exists books, traverse (map Book_from_orm l) = Return books) \/
  (exists loc, traverse (map Book_from_orm l) = Raise (ResponseValidationError loc)).
Proof.
  induction l as [|b l IH]; simpl; [left; eexists; reflexivity|].
  unfold Book_from_orm at 1 3.
  destruct (BookModel.year_published b);
    try (right; eexists; reflexivity);
    (destruct IH as [[books ->]|[loc ->]];
     [left; eexists; reflexivity | right; eexists; reflexivity]).
Qed.

Lemma traverse_Book_from_orm_Return (l : list BookModel.t) (books : list Book.t) :
  traverse (map Book_from_orm l) = Return books -> books = map Book_of_row l.
Proof.
  intros H. apply traverse_length in H.
  induction H as [|b book l books Hb _ IH]; [reflexivity|].
  simpl. rewrite (Book_from_orm_Return _ _ Hb), IH. reflexivity.
Qed.

Lemma traverse_Book_from_orm_valid (l : list BookModel.t) :
  Forall (fun b => BookModel.year_published b <> YearEmptyStr) l ->
  traverse (map Book_from_orm l) = Return (map Book_of_row l).
Proof.
  induction 1 as [|b l Hb _ IH]; simpl; [reflexivity|].
  rewrite (Book_from_orm_valid b Hb), IH. reflexivity.
Qed.

Lemma in__one_char (response title : string) :
  existsb (String.eqb title) (iter_str response) = true -> String.length title = 1%nat.
Proof.
  unfold iter_str. rewrite existsb_exists. intros [c [Hin Heq]].
  apply in_map_iff in Hin. destruct Hin as [a [<- _]].
  apply String.eqb_eq in Heq. rewrite Heq. reflexivity.
Qed.

Lemma well_formed_example : well_formed example_library.
Proof.
  split; repeat constructor; eexists; split; try reflexivity; vm_compute; discriminate.
Qed.

Lemma well_formed_one_book : well_formed one_book.
Proof.
  split; repeat constructor; eexists; split; try reflexivity; vm_compute; discriminate.
Qed.

Lemma unique_keys_example :
  unique_keys BookModel.id (books example_library) /\
  unique_keys ReviewModel.id (reviews example_library).
Proof.
  split; unfold unique_keys; cbn;
    repeat (constructor; [cbn; intuition discriminate|]); constructor.
Qed.

Lemma reviews_for_after_add (id : Z) (review : Review.t) (database : Database) (k : Z) :
  reviews_for id
    (mk_database (books database)
       (mk_table (rows (reviews database) ++ [stored_review k id review]) k))
  = (reviews_for id database ++ [stored_review k id review])%list.
Proof.
  unfold reviews_for. cbn [reviews rows]. rewrite filter_app. cbn [filter].
  unfold book_id_is at 2. cbn [stored_review ReviewModel.book_id column_eq].
  rewrite Z.eqb_refl. reflexivity.
Qed.

(** The values bound do not include the key. *)
Lemma bind_book_stored (k : Z) (book : Book.t) :
  bind_book (stored_book k book) = bind_book (new_book book).
Proof. reflexivity. Qed.

Lemma bind_book_updated (b : BookModel.t) (book : Book.t) :
  bind_book (updated_book b book) = bind_book (new_book book).
Proof. reflexivity. Qed.

(** What the routes do when the database takes the values. *)
Lemma route_add_book_stored (body : Book.body) (database : Database) :
  keys_below BookModel.id (books database) ->
  bind_book (new_book (Book.parse_obj body)) = Return tt ->
  id_seq (books database) + 1 <= int4_max ->
  let k := id_seq (books database) + 1 in
  route_add_book body database =
  (Return (Book.set_id k (Book.parse_obj body)),
   mk_database (mk_table (rows (books database) ++ [stored_book k (Book.parse_obj body)]) k)
               (reviews database)).
Proof.
  intros Hk Hbind Hseq k.
  rewrite (route_add_book_eq body database Hk). cbv zeta. rewrite Hbind.
  fold k. apply Z.leb_le in Hseq. fold k in Hseq. rewrite Hseq.
  rewrite (bind_book_valid (stored_book k (Book.parse_obj body))) by exact Hbind.
  reflexivity.
Qed.

Lemma route_add_review_stored (id : Z) (review : Review.t) (database : Database)
      (b : BookModel.t) :
  keys_below ReviewModel.id (reviews database) ->
  book_with id database = Some b ->
  bind_review (new_review id review) = Return tt ->
  id_seq (reviews database) + 1 <= int4_max ->
  let k := id_seq (reviews database) + 1 in
  route_add_review id review database =
  (Return (Review_from_orm (stored_review k id review)),
   mk_database (books database)
               (mk_table (rows (reviews database) ++ [stored_review k id review]) k)).
Proof.
  intros Hk Hb Hbind Hseq k.
  rewrite (route_add_review_eq id review database Hk), Hb, Hbind.
  cbv zeta. fold k. apply Z.leb_le in Hseq. fold k in Hseq. rewrite Hseq.
  reflexivity.
Qed.

(** ** Posting several reviews *)

Lemma len_cons {A} (a : A) (l : list A) : len (a :: l) = len l + 1.
Proof. unfold len. cbn [List.length]. lia. Qed.

Lemma len_nonneg {A} (l : list A) : 0 <= len l.
Proof. unfold len. lia. Qed.

(** Reviews the database takes are all stored, in the order posted. *)
Lemma add_reviews_stored (id : Z) (l : list Review.t) :
  forall (database : Database) (b : BookModel.t),
    keys_below ReviewModel.id (reviews database) ->
    book_with id database = Some b ->
    Forall (fun review => bind_review (new_review id review) = Return tt) l ->
    id_seq (reviews database) + len l <= int4_max ->
    books (add_reviews id l database) = books database /\
    map ReviewModel.rating (reviews_for id (add_reviews id l database))
    = (map ReviewModel.rating (reviews_for id database) ++ map Review.rating l)%list.
Proof.
  induction l as [|review rest IH]; intros database b Hk Hb Hall Hseq.
  - cbn [add_reviews map]. rewrite app_nil_r. split; reflexivity.
  - inversion Hall as [|? ? Hbind Hrest]; subst.
    rewrite len_cons in Hseq. pose proof (len_nonneg rest) as Hlen.
    cbn [add_reviews].
    rewrite (route_add_review_stored id review database b Hk Hb Hbind) by lia.
    cbv zeta. cbn [snd].
    set (k := id_seq (reviews database) + 1).
    set (database1 :=
           mk_database (books database)
             (mk_table (rows (reviews database) ++ [stored_review k id review])%list k)).
    destruct (IH database1 b) as [Hbooks Hratings].
    + apply (keys_below_insert ReviewModel.id (stored_review k id review)
               (reviews database)); [reflexivity | exact Hk].
    + exact Hb.
    + exact Hrest.
    + cbn [database1 reviews id_seq]. subst k. lia.
    + split; [exact Hbooks|].
      rewrite Hratings. unfold database1. rewrite reviews_for_after_add.
      rewrite map_app, <- app_assoc. reflexivity.
Qed.

(** ** Referential integrity *)

Lemma existsb_app_l {A} (p : A -> bool) (l l' : list A) :
  existsb p l = true -> existsb p (l ++ l') = true.
Proof. intros H. rewrite existsb_app, H. reflexivity. Qed.

Lemma existsb_table_update (k : Z) (x : BookModel.t) (l : list BookModel.t) :
  existsb (id_is k) (map (fun r => if same_key BookModel.id x r then x else r) l)
  = existsb (id_is k) l.
Proof.
  induction l as [|a l IH]; [reflexivity|]. cbn [map existsb]. rewrite IH. f_equal.
  unfold same_key. destruct (BookModel.id x) as [kx|] eqn:Hx; [|reflexivity].
  destruct (column_eq (BookModel.id a) kx) eqn:Ha; [|reflexivity].
  apply column_eq_true in Ha. unfold id_is. rewrite Hx, Ha. reflexivity.
Qed.

Lemma existsb_table_delete (k id : Z) (x : BookModel.t) (l : list BookModel.t) :
  BookModel.id x = Some id -> k <> id ->
  existsb (id_is k) (filter (fun r => negb (same_key BookModel.id x r)) l)
  = existsb (id_is k) l.
Proof.
  intros Hx Hne. unfold same_key. rewrite Hx.
  induction l as [|a l IH]; [reflexivity|]. cbn [filter existsb].
  destruct (column_eq (BookModel.id a) id) eqn:Ha; cbn [negb existsb].
  - apply column_eq_true in Ha. rewrite IH. unfold id_is at 2. rewrite Ha.
    cbn [column_eq]. destruct (Z.eqb_spec id k) as [Heq|_];
      [symmetry in Heq; contradiction | reflexivity].
  - rewrite IH. reflexivity.
Qed.

(** ** The claims *)




(** C2 (add_book, get_book).  A body that leaves [year_published] out is
    given the declared default, the empty string, which the [Integer] column
    does not take: the create request answers with the error of the
    refused INSERT instead of the created record, and nothing is stored. *)
Theorem add_book_default_year_fails (body : Book.body) (database : Database) :
  Book.body_year_published body = Missing ->
  exists e,
    bind_book (new_book (Book.parse_obj body)) = Raise e /\
    route_add_book body database = (Raise e, database).
Proof.
  intros Hyear.
  destruct (bind_book_empty_year (new_book (Book.parse_obj body))) as [e He].
  - unfold new_book, Book.parse_obj.
    cbn [BookModel.year_published Book.year_published]. rewrite Hyear. reflexivity.
  - exists e. split; [exact He|]. exact (route_add_book_refused body database e He).
Qed.

Lemma add_book_default_year_fails_witness :
  exists e,
    bind_book (new_book (Book.parse_obj dune)) = Raise e /\
    route_add_book dune empty_database = (Raise e, empty_database).
Proof.
  apply (add_book_default_year_fails dune empty_database). reflexivity.
Defined.

(** C3 (update_book).  An update body that leaves [year_published] out
    carries the empty string, which the [Integer] column does not take: the
    update of a stored book answers with the error of the refused UPDATE,
    nothing is overwritten, and the fetch that follows answers with the
    book as it was before, not with the payload. *)
Theorem update_book_default_year_fails
    (id : Z) (body : Book.body) (database : Database) (b : BookModel.t) :
  book_with id database = Some b ->
  Book.body_year_published body = Missing ->
  exists e,
    route_update_book id body database = (Raise e, database) /\
    route_get_book id (snd (route_update_book id body database))
      = (Book_from_orm b, database).
Proof.
  intros Hb Hyear.
  destruct (bind_book_empty_year (updated_book b (Book.parse_obj body))) as [e He].
  - unfold updated_book, Book.parse_obj.
    cbn [BookModel.year_published Book.year_published]. rewrite Hyear. reflexivity.
  - exists e. rewrite route_update_book_eq, Hb. cbv zeta. rewrite He.
    split; [reflexivity|]. cbn [snd]. rewrite route_get_book_eq, Hb. reflexivity.
Qed.

Lemma update_book_default_year_fails_witness :
  exists e,
    route_update_book 1 dune example_library = (Raise e, example_library) /\
    route_get_book 1 (snd (route_update_book 1 dune example_library))
      = (Return (Book.mk (Some 1) "Dune" "Herbert" (Some "") (YearInt 1965) (Some "sand")),
         example_library).
Proof.
  exact (update_book_default_year_fails 1 dune example_library
           (BookModel.mk (Some 1) "Dune" "Herbert" (Some "") (YearInt 1965) (Some "sand"))
           eq_refl eq_refl).
Defined.

(** C4 (delete_book, get_book), as the claim states it, at a book that has
    reviews: the foreign key of [reviews.book_id] refuses the delete, the
    store is unchanged, and a fetch of the key still answers with the
    book. *)
Lemma delete_book_with_reviews_refused :
  book_with 1 example_library =
    Some (BookModel.mk (Some 1) "Dune" "Herbert" (Some "") (YearInt 1965) (Some "sand")) /\
  route_delete_book 1 example_library = (Raise foreign_key_violation, example_library) /\
  route_get_book 1 (snd (route_delete_book 1 example_library)) =
    (Return (Book.mk (Some 1) "Dune" "Herbert" (Some "") (YearInt 1965) (Some "sand")),
     example_library).
Proof. repeat split. Qed.

(** C4 (delete_book, get_book), amended.  Deleting a stored book for which
    no review is stored succeeds, and a fetch of its key is then Not-Found;
    a stored book for which a review is stored is not deleted: the foreign
    key refuses and the database stays as it was; deleting an absent key is
    Not-Found and changes nothing; and in every case the reviews table
    after the delete is the reviews table before it. *)
Theorem delete_book_unless_referenced (id : Z) (database : Database) :
  (forall b, book_with id database = Some b ->
     reviews_for id database = [] ->
     exists database',
       route_delete_book id database = (Return "Book deleted successfully", database') /\
       route_get_book id database' = (Raise Book_not_found, database')) /\
  (forall b, book_with id database = Some b ->
     reviews_for id database <> [] ->
     route_delete_book id database = (Raise foreign_key_violation, database)) /\
  (book_with id database = None ->
     route_delete_book id database = (Raise Book_not_found, database)) /\
  reviews (snd (route_delete_book id database)) = reviews database.
Proof.
  rewrite route_delete_book_eq.
  destruct (book_with id database) as [b|] eqn:Hb.
  - pose proof (referenced_reviews_for id b database (find_some_key _ _ _ Hb)) as Href.
    destruct (referenced b database).
    + split; [|split; [|split; [discriminate | reflexivity]]].
      * intros b' _ Hnone. apply Href in Hnone. discriminate.
      * intros b' _ _. reflexivity.
    + split; [|split; [|split; [discriminate | reflexivity]]].
      * intros b' _ _. eexists. split; [reflexivity|].
        rewrite route_get_book_eq. unfold book_with, table_delete. cbn [books rows].
        pose proof (find_table_delete BookModel.id b id (rows (books database))
                      (find_some_key _ _ _ Hb)) as Hgone.
        unfold id_is. rewrite Hgone. reflexivity.
      * intros b' _ Hsome. exfalso. apply Hsome. apply Href. reflexivity.
  - split; [discriminate|]. split; [discriminate|]. split; reflexivity.
Qed.

Lemma delete_book_unless_referenced_witness :
  (exists database',
     route_delete_book 2 example_library =
       (Return "Book deleted successfully", database') /\
     route_get_book 2 database' = (Raise Book_not_found, database')) /\
  route_delete_book 1 example_library = (Raise foreign_key_violation, example_library) /\
  route_delete_book 5 example_library = (Raise Book_not_found, example_library) /\
  reviews (snd (route_delete_book 2 example_library)) = reviews example_library.
Proof.
  destruct (delete_book_unless_referenced 2 example_library) as [Hfree [_ [_ Hreviews]]].
  destruct (delete_book_unless_referenced 1 example_library) as [_ [Hrefused _]].
  destruct (delete_book_unless_referenced 5 example_library) as [_ [_ [Habsent _]]].
  split; [eapply Hfree; reflexivity|].
  split; [eapply Hrefused; [reflexivity | discriminate]|].
  split; [apply Habsent; reflexivity | exact Hreviews].
Defined.

(** C5 (add_review).  Adding a review under a key no stored book has is
    Not-Found, and the database is handed back exactly as it was. *)
Theorem add_review_unknown_book_persists_nothing
    (id : Z) (review : Review.t) (database : Database) :
  book_with id database = None ->
  route_add_review id review database = (Raise Book_not_found, database).
Proof.
  intros Hb. rewrite (route_add_review_absent id review database Hb). reflexivity.
Qed.

Lemma add_review_unknown_book_persists_nothing_witness :
  route_add_review 5 example_review example_library =
  (Raise Book_not_found, example_library).
Proof.
  apply (add_review_unknown_book_persists_nothing 5 example_review example_library).
  reflexivity.
Defined.

(** C6 (get_reviews).  Listing the reviews of a key is Not-Found exactly
    when no stored review carries that key as its [book_id], whether or not
    a book has the key; otherwise the answer is all those reviews, so it is
    never the empty list. *)
Theorem get_reviews_not_found_iff_none (id : Z) (database : Database) :
  route_get_reviews id database =
    (match reviews_for id database with
     | [] => Raise No_reviews_found
     | found => Return (map Review_from_orm found)
     end, database) /\
  (fst (route_get_reviews id database) = Raise No_reviews_found <->
   reviews_for id database = []) /\
  (fst (route_get_reviews id database) = Return [] -> False).
Proof.
  rewrite route_get_reviews_eq. cbn [fst].
  split; [reflexivity|].
  destruct (reviews_for id database) as [|x found] eqn:Hfound.
  - split; [split; reflexivity | discriminate].
  - split; [split; discriminate | discriminate].
Qed.

(** C7 (add_review), as the claim states it, at the rating [2^31]: the
    [Integer] column does not take it, the request answers with the error
    of the refused INSERT and nothing is stored. *)
Lemma add_review_rating_out_of_range_refused :
  book_with 2 example_library <> None /\
  route_add_review 2 (Review.mk None None 7 "grim" 2147483648) example_library =
  (Raise (DataError "integer out of range"), example_library).
Proof. split; [discriminate | reflexivity]. Qed.

(** C7 (add_review), amended.  For a stored book, a review whose rating and
    user fit the [Integer] columns (32 bits, signed) and whose text the
    database takes (no NUL character, within a row of the index) is stored,
    while the sequence of keys lasts, and returned with the key of the
    request path as its [book_id], whatever [id] and [book_id] the payload
    carries, and with the payload's rating as it came, negative or beyond 5
    as it may be. *)
Theorem add_review_binds_path_id
    (id : Z) (database : Database) (b : BookModel.t)
    (payload_id payload_book_id : option Z) (user_id : Z) (review_text : string)
    (rating : Z) :
  well_formed database ->
  book_with id database = Some b ->
  int4 rating = true ->
  int4 user_id = true ->
  bind_text review_text = Return tt ->
  index_text review_text = Return tt ->
  id_seq (reviews database) + 1 <= int4_max ->
  let k := id_seq (reviews database) + 1 in
  route_add_review id (Review.mk payload_id payload_book_id user_id review_text rating)
                   database =
  (Return (Review.mk (Some k) (Some id) user_id review_text rating),
   mk_database
     (books database)
     (mk_table (rows (reviews database) ++
                [ReviewModel.mk (Some k) (Some id) user_id review_text rating]) k)).
Proof.
  intros [_ Hreviews] Hb Hrating Huser Htext Hindex Hseq k.
  rewrite (route_add_review_eq id _ database Hreviews), Hb.
  rewrite bind_review_Return by assumption.
  cbv zeta. fold k. apply Z.leb_le in Hseq. fold k in Hseq. rewrite Hseq. reflexivity.
Qed.

Lemma add_review_binds_path_id_witness :
  route_add_review 2 example_review example_library =
  (Return (Review.mk (Some 3) (Some 2) 7 "grim" (-3)),
   mk_database
     (books example_library)
     (mk_table (rows (reviews example_library) ++
                [ReviewModel.mk (Some 3) (Some 2) 7 "grim" (-3)]) 3)).
Proof.
  eapply (add_review_binds_path_id 2 example_library).
  - split; repeat constructor; eexists; split; try reflexivity; vm_compute; discriminate.
  - reflexivity.
  - reflexivity.
  - reflexivity.
  - reflexivity.
  - reflexivity.
  - vm_compute. discriminate.
Defined.

(** C8 (get_recommendations).  With no book stored the route is Not-Found.
    With a book stored whose [summary] is null, joining the summaries into
    the prompt raises, so the request fails before the client is invoked and
    no book is returned. *)
Theorem get_recommendations_null_summary_fails
    (version : SQLAlchemy) (invoke : string -> string) (database : Database) :
  (rows (books database) = [] ->
   route_get_recommendations version invoke database
   = (Raise No_books_found, database)) /\
  (In None (map BookModel.summary (rows (books database))) ->
   route_get_recommendations version invoke database =
   (Raise (TypeError "sequence item: expected str instance, NoneType found"),
    database)).
Proof.
  unfold route_get_recommendations.
  rewrite (get_recommendations_eq response_Book Book_from_orm version invoke database
             response_Book_loaded).
  split.
  - intros Hnone. rewrite Hnone. reflexivity.
  - intros Hnull.
    destruct (rows (books database)) as [|b stored] eqn:Hrows; [destruct Hnull|].
    cbv beta iota zeta. rewrite (join_optional_None ", " _ Hnull). reflexivity.
Qed.

Lemma get_recommendations_null_summary_fails_witness :
  route_get_recommendations SQLAlchemy_1_3 echo empty_database
    = (Raise No_books_found, empty_database) /\
  route_get_recommendations SQLAlchemy_1_4 echo unsummarised_library =
  (Raise (TypeError "sequence item: expected str instance, NoneType found"),
   unsummarised_library).
Proof.
  split.
  - apply (get_recommendations_null_summary_fails SQLAlchemy_1_3 echo empty_database).
    reflexivity.
  - apply (get_recommendations_null_summary_fails SQLAlchemy_1_4 echo
             unsummarised_library).
    left. reflexivity.
Defined.

(** C9 (generate_summary).  The client's answer is a [str]; the handler
    reads [.choices] from it, which raises, whatever the content and the
    answer are.  No summary is returned; the database is not involved. *)
Theorem generate_summary_always_raises
    (invoke : string -> string) (content : string) (database : Database) :
  route_generate_summary invoke content database =
  (Raise (AttributeError "'str' object has no attribute 'choices'"), database).
Proof.
  unfold route_generate_summary, generate_summary.
  cbn [getattr rbind]. reflexivity.
Qed.

(** C10 (get_books, get_book, get_reviews, get_summary).  Each of the four
    reading routes hands back the database it was given, both tables
    included, whatever it answers. *)
Theorem read_routes_leave_database_unchanged
    (invoke : string -> string) (id : Z) (database : Database) :
  snd (route_get_books database) = database /\
  snd (route_get_book id database) = database /\
  snd (route_get_reviews id database) = database /\
  snd (route_get_summary invoke id database) = database.
Proof.
  repeat split; apply get_db_read_only.
  - apply read_only_bind; [apply read_only_get_books|].
    intros books. apply read_only_mapM. apply read_only_response_Book.
  - apply read_only_bind; [apply read_only_get_book|].
    apply read_only_response_Book.
  - apply read_only_bind; [apply read_only_get_reviews|].
    intros reviews. apply read_only_mapM. apply read_only_response_Review.
  - apply read_only_get_summary.
Qed.

(** ** Further properties *)

(** X1 (add_book, get_book).  When the database takes the values of the
    body (a year that is null or a 32-bit integer, texts without a NUL
    character) and the sequence of keys lasts, the create route stores the
    book under the next key and returns it, and a fetch of that key returns
    the same record. *)
Theorem add_book_then_get_book (body : Book.body) (database : Database) :
  well_formed database ->
  bind_book (new_book (Book.parse_obj body)) = Return tt ->
  id_seq (books database) + 1 <= int4_max ->
  let k := id_seq (books database) + 1 in
  let created := Book.set_id k (Book.parse_obj body) in
  exists database',
    route_add_book body database = (Return created, database') /\
    route_get_book k database' = (Return created, database').
Proof.
  intros [Hbooks _] Hbind Hseq k created.
  rewrite (route_add_book_stored body database Hbooks Hbind Hseq). fold k. fold created.
  eexists. split; [reflexivity|].
  rewrite route_get_book_eq. unfold book_with. cbn [books rows].
  rewrite find_app_fresh by (apply keys_below_fresh; exact Hbooks).
  unfold id_is at 1. cbn [stored_book BookModel.id column_eq]. fold k.
  rewrite Z.eqb_refl.
  change (Book_from_orm (BookModel.mk (Some k) _ _ _ _ _))
    with (Book_from_orm (stored_book k (Book.parse_obj body))).
  rewrite (bind_book_valid (stored_book k (Book.parse_obj body))) by exact Hbind.
  reflexivity.
Qed.

Lemma add_book_then_get_book_witness :
  exists database',
    route_add_book dune_1965 example_library =
      (Return (Book.mk (Some 3) "Dune" "Herbert" (Some "") (YearInt 1965) None),
       database') /\
    route_get_book 3 database' =
      (Return (Book.mk (Some 3) "Dune" "Herbert" (Some "") (YearInt 1965) None),
       database').
Proof.
  apply (add_book_then_get_book dune_1965 example_library).
  - exact well_formed_example.
  - reflexivity.
  - vm_compute. discriminate.
Defined.

(** X2 (update_book, get_book).  When the database takes the values of the
    body, the update of a stored book returns the body's fields under the
    book's key, and a fetch of the key returns the same; for a key no book
    has, the update is Not-Found and the database is unchanged. *)
Theorem update_book_then_get_book (id : Z) (body : Book.body) (database : Database) :
  (forall b, book_with id database = Some b ->
     bind_book (new_book (Book.parse_obj body)) = Return tt ->
     let updated := Book.set_id id (Book.parse_obj body) in
     exists database',
       route_update_book id body database = (Return updated, database') /\
       route_get_book id database' = (Return updated, database')) /\
  (book_with id database = None ->
     route_update_book id body database = (Raise Book_not_found, database)).
Proof.
  rewrite route_update_book_eq. split.
  - intros b Hb Hbind updated. rewrite Hb. cbv zeta.
    rewrite bind_book_updated, Hbind.
    assert (Hvalid : Book_from_orm (updated_book b (Book.parse_obj body)) = Return updated).
    { rewrite (bind_book_valid (updated_book b (Book.parse_obj body))) by exact Hbind.
      unfold Book_of_row, updated_book, updated, Book.set_id.
      cbn [BookModel.id BookModel.title BookModel.author BookModel.genre
           BookModel.year_published BookModel.summary].
      rewrite (find_some_key _ _ _ Hb). reflexivity. }
    eexists. split; [rewrite Hvalid; reflexivity|].
    rewrite route_get_book_eq. unfold book_with at 1. cbn [books].
    rewrite (book_with_table_update id b _ database Hb), Hvalid. reflexivity.
  - intros Hb. rewrite Hb. reflexivity.
Qed.

Lemma update_book_then_get_book_witness :
  (exists database',
     route_update_book 2 dune_1965 example_library =
       (Return (Book.mk (Some 2) "Dune" "Herbert" (Some "") (YearInt 1965) None),
        database') /\
     route_get_book 2 database' =
       (Return (Book.mk (Some 2) "Dune" "Herbert" (Some "") (YearInt 1965) None),
        database')) /\
  route_update_book 5 dune_1965 example_library = (Raise Book_not_found, example_library).
Proof.
  destruct (update_book_then_get_book 2 dune_1965 example_library) as [Hpresent _].
  destruct (update_book_then_get_book 5 dune_1965 example_library) as [_ Habsent].
  split.
  - eapply Hpresent; reflexivity.
  - apply Habsent. reflexivity.
Defined.

(** X3 (get_recommendations).  When every stored summary is a string, the
    client is invoked on the prompt built from the titles and summaries.
    On SQLAlchemy 1.3, if the answer has no NUL character, the objects the
    handler returns are exactly the stored books whose title is one of the
    items of the answer iterated as a Python sequence, that is one of its
    characters, and the route answers with those books validated.  On
    SQLAlchemy 1.4 the answer, a string, is refused as the operand of [in_]
    and the route raises.  The database is unchanged either way. *)
Theorem get_recommendations_filters_by_raw_response
    (invoke : string -> string) (database : Database) (summaries : string) :
  rows (books database) <> [] ->
  join_optional ", " (map BookModel.summary (rows (books database))) = Return summaries ->
  let response :=
    invoke (recommendation_prompt (map BookModel.title (rows (books database)))
                                  summaries) in
  let chosen :=
    filter (fun b => existsb (String.eqb (BookModel.title b)) (iter_str response))
           (rows (books database)) in
  (bind_text response = Return tt ->
   get_db (books <- get_recommendations SQLAlchemy_1_3 invoke ;;
           mapM getattrs_book books) database
     = (Return chosen, database) /\
   route_get_recommendations SQLAlchemy_1_3 invoke database
     = (traverse (map Book_from_orm chosen), database)) /\
  route_get_recommendations SQLAlchemy_1_4 invoke database
    = (Raise (ArgumentError "IN expression list, SELECT construct, or bound parameter object expected"),
       database).
Proof.
  intros Hrows Hjoin response chosen.
  unfold route_get_recommendations.
  rewrite !(get_recommendations_eq response_Book Book_from_orm _ invoke database
              response_Book_loaded).
  rewrite (get_recommendations_eq getattrs_book (fun b => Return b) _ invoke database
             getattrs_book_loaded).
  destruct (rows (books database)) as [|b stored] eqn:E; [contradiction|].
  cbv beta iota zeta. rewrite Hjoin. cbn [rbind in_]. fold response.
  split; [|reflexivity].
  intros Hbind. rewrite Hbind. cbn [rbind]. fold chosen.
  rewrite (traverse_Return (fun b => b)), map_id. split; reflexivity.
Qed.

Lemma get_recommendations_filters_by_raw_response_witness :
  (get_db (books <- get_recommendations SQLAlchemy_1_3 answer_D ;;
           mapM getattrs_book books) example_library
     = (Return [BookModel.mk (Some 2) "D" "Anon" None YearNone (Some "")],
        example_library) /\
   route_get_recommendations SQLAlchemy_1_3 answer_D example_library
     = (Return [Book.mk (Some 2) "D" "Anon" None YearNone (Some "")], example_library)) /\
  route_get_recommendations SQLAlchemy_1_4 answer_D example_library
    = (Raise (ArgumentError "IN expression list, SELECT construct, or bound parameter object expected"),
       example_library).
Proof.
  destruct (get_recommendations_filters_by_raw_response answer_D example_library "sand, ")
    as [Hold Hnew].
  - discriminate.
  - reflexivity.
  - split; [apply Hold; reflexivity | exact Hnew].
Defined.

(** X4.  Keys stay below their sequence: the empty database is well formed
    and every writing route keeps a well-formed database well formed. *)
Theorem routes_preserve_well_formed (database : Database) :
  well_formed database ->
  (forall body, well_formed (snd (route_add_book body database))) /\
  (forall id body, well_formed (snd (route_update_book id body database))) /\
  (forall id, well_formed (snd (route_delete_book id database))) /\
  (forall id review, well_formed (snd (route_add_review id review database))).
Proof.
  intros [Hbooks Hreviews].
  assert (Hwf : well_formed database) by (split; assumption).
  split; [|split; [|split]].
  - intros body. rewrite (route_add_book_eq body database Hbooks). cbv zeta.
    destruct (bind_book _); [|exact Hwf].
    destruct (_ <=? _); [|exact Hwf].
    split; [|exact Hreviews]. cbn [snd books].
    apply keys_below_insert; [reflexivity | exact Hbooks].
  - intros id body. rewrite route_update_book_eq.
    destruct (book_with id database) as [b|] eqn:Hb; [|exact Hwf].
    cbv zeta. destruct (bind_book _); [|exact Hwf].
    split; [|exact Hreviews]. cbn [snd books].
    apply keys_below_update; [|exact Hbooks].
    exists b. split; [|reflexivity].
    apply find_some in Hb. apply Hb.
  - intros id. rewrite route_delete_book_eq.
    destruct (book_with id database) as [b|]; [|exact Hwf].
    destruct (referenced b database); [exact Hwf|].
    split; [|exact Hreviews]. cbn [snd books].
    apply keys_below_delete. exact Hbooks.
  - intros id review. rewrite (route_add_review_eq id review database Hreviews).
    destruct (book_with id database) as [b|]; [|exact Hwf].
    destruct (bind_review _); [|exact Hwf].
    cbv zeta. destruct (_ <=? _); [|exact Hwf].
    split; [exact Hbooks|]. cbn [snd reviews].
    apply keys_below_insert; [reflexivity | exact Hreviews].
Qed.

Lemma routes_preserve_well_formed_witness :
  (forall body, well_formed (snd (route_add_book body empty_database))) /\
  (forall id body, well_formed (snd (route_update_book id body empty_database))) /\
  (forall id, well_formed (snd (route_delete_book id empty_database))) /\
  (forall id review, well_formed (snd (route_add_review id review empty_database))).
Proof.
  apply (routes_preserve_well_formed empty_database). exact well_formed_empty.
Defined.

(** X5 (get_book).  A fetch by key answers with the first stored book of
    that key, validated against the response model, or Not-Found when no
    stored book has the key; the database is handed back unchanged. *)
Theorem get_book_by_key (id : Z) (database : Database) :
  route_get_book id database =
  (match book_with id database with
   | None => Raise Book_not_found
   | Some b => Book_from_orm b
   end, database).
Proof.
  rewrite route_get_book_eq.
  destruct (book_with id database); reflexivity.
Qed.

(** X6 (get_summary).  The summary route is Not-Found when the book is
    absent, Not-Found when no review is stored for it, and otherwise pairs
    the client's answer to "Summarize the following reviews: " followed by
    the review texts joined by single spaces, in storage order, with the
    float that dividing the total of the ratings by the number of reviews
    gives. *)
Theorem get_summary_answer (invoke : string -> string) (id : Z) (database : Database) :
  route_get_summary invoke id database =
  (match book_with id database with
   | None => Raise Book_not_found
   | Some _ =>
       match reviews_for id database with
       | [] => Raise No_reviews_found
       | found =>
           match true_div (total (map ReviewModel.rating found)) (len found) with
           | Return average_rating =>
               Return (Summary.mk
                         (invoke ("Summarize the following reviews: " ++
                                  join " " (map ReviewModel.review_text found)))
                         average_rating)
           | Raise e => Raise e
           end
       end
   end, database).
Proof.
  rewrite route_get_summary_eq. unfold summary_prompt, total.
  destruct (book_with id database); [|reflexivity].
  destruct (reviews_for id database) as [|x found]; [reflexivity|].
  rewrite sum_fold_right. reflexivity.
Qed.

(** ** Further properties of the routes *)

(** X7 (get_books).  The list route is never Not-Found: on an empty table
    it answers with the empty list, and whenever it answers with a list,
    that list is every stored book, in storage order; it does answer with
    one when no stored book holds the empty-string year. *)
Theorem get_books_lists_every_row (database : Database) :
  (rows (books database) = [] -> route_get_books database = (Return [], database)) /\
  (Forall (fun b => BookModel.year_published b <> YearEmptyStr) (rows (books database)) ->
   route_get_books database =
   (Return (map Book_of_row (rows (books database))), database)) /\
  (forall l, fst (route_get_books database) = Return l ->
             l = map Book_of_row (rows (books database))) /\
  (forall status detail,
      fst (route_get_books database) = Raise (HTTPException status detail) -> False).
Proof.
  rewrite route_get_books_eq. cbn [fst]. repeat split.
  - intros ->. reflexivity.
  - intros Hvalid. rewrite (traverse_Book_from_orm_valid _ Hvalid). reflexivity.
  - intros l Hl. exact (traverse_Book_from_orm_Return _ _ Hl).
  - intros status detail H.
    destruct (traverse_Book_from_orm (rows (books database))) as [[l Hl]|[loc Hl]];
      rewrite Hl in H; discriminate.
Qed.

Lemma get_books_lists_every_row_witness :
  route_get_books empty_database = (Return [], empty_database) /\
  route_get_books example_library =
  (Return (map Book_of_row (rows (books example_library))), example_library).
Proof.
  destruct (get_books_lists_every_row empty_database) as [Hempty _].
  destruct (get_books_lists_every_row example_library) as [_ [Hvalid _]].
  split; [apply Hempty; reflexivity|].
  apply Hvalid. repeat constructor; discriminate.
Defined.

(** X9 (add_book, update_book, delete_book, get_book).  Writing one book
    leaves the fetch of every other key as it was: an update or a delete of
    key [id] does not change what a fetch of a different key answers, and a
    create changes the answer for no key but the new one. *)
Theorem book_writes_leave_other_books
    (id id' : Z) (body : Book.body) (database : Database) :
  well_formed database ->
  id' <> id ->
  fst (route_get_book id' (snd (route_update_book id body database)))
    = fst (route_get_book id' database) /\
  fst (route_get_book id' (snd (route_delete_book id database)))
    = fst (route_get_book id' database) /\
  (id' <> id_seq (books database) + 1 ->
   fst (route_get_book id' (snd (route_add_book body database)))
     = fst (route_get_book id' database)).
Proof.
  intros [Hbooks _] Hne.
  rewrite !route_get_book_eq. cbn [fst]. repeat split.
  - rewrite route_update_book_eq.
    destruct (book_with id database) as [b|] eqn:Hb; [|reflexivity].
    cbv zeta. destruct (bind_book _); [|reflexivity].
    cbn [snd]. unfold book_with, table_update. cbn [books rows].
    rewrite (find_other_key_update id id'); [reflexivity| |exact Hne].
    cbn [updated_book BookModel.id]. exact (find_some_key _ _ _ Hb).
  - rewrite route_delete_book_eq.
    destruct (book_with id database) as [b|] eqn:Hb; [|reflexivity].
    destruct (referenced b database); [reflexivity|].
    cbn [snd]. unfold book_with, table_delete. cbn [books rows].
    rewrite (find_other_key_delete id id' b _ (find_some_key _ _ _ Hb) Hne).
    reflexivity.
  - intros Hnew. rewrite (route_add_book_eq body database Hbooks).
    cbv zeta. destruct (bind_book _); [|reflexivity].
    destruct (_ <=? _); [|reflexivity].
    cbn [snd]. unfold book_with. cbn [books rows].
    rewrite find_app.
    destruct (find (id_is id') (rows (books database))); [reflexivity|].
    cbn [find]. unfold id_is. cbn [stored_book BookModel.id column_eq].
    destruct (Z.eqb_spec (id_seq (books database) + 1) id') as [Heq|_];
      [symmetry in Heq; contradiction | reflexivity].
Qed.

Lemma book_writes_leave_other_books_witness :
  fst (route_get_book 1 (snd (route_update_book 2 dune_1965 example_library)))
    = fst (route_get_book 1 example_library) /\
  fst (route_get_book 1 (snd (route_delete_book 2 example_library)))
    = fst (route_get_book 1 example_library) /\
  fst (route_get_book 1 (snd (route_add_book dune_1965 example_library)))
    = fst (route_get_book 1 example_library).
Proof.
  destruct (book_writes_leave_other_books 2 1 dune_1965 example_library)
    as [Hupdate [Hdelete Hadd]];
    [exact well_formed_example | discriminate |].
  split; [exact Hupdate|]. split; [exact Hdelete|]. apply Hadd. discriminate.
Defined.

(** X10 (add_book, update_book, add_review).  A write stays in its table:
    creating or updating a book leaves the reviews table as it was, adding a
    review leaves the books table as it was, and leaves the reviews of every
    other book as they were. *)
Theorem writes_stay_in_their_table
    (id id' : Z) (body : Book.body) (review : Review.t) (database : Database) :
  well_formed database ->
  reviews (snd (route_add_book body database)) = reviews database /\
  reviews (snd (route_update_book id body database)) = reviews database /\
  books (snd (route_add_review id review database)) = books database /\
  (id' <> id ->
   reviews_for id' (snd (route_add_review id review database))
     = reviews_for id' database).
Proof.
  intros [Hbooks Hreviews]. split; [|split; [|split]].
  - rewrite (route_add_book_eq body database Hbooks). cbv zeta.
    destruct (bind_book _); [|reflexivity]. destruct (_ <=? _); reflexivity.
  - rewrite route_update_book_eq. destruct (book_with id database); [|reflexivity].
    cbv zeta. destruct (bind_book _); reflexivity.
  - rewrite (route_add_review_eq id review database Hreviews).
    destruct (book_with id database); [|reflexivity].
    destruct (bind_review _); [|reflexivity].
    cbv zeta. destruct (_ <=? _); reflexivity.
  - intros Hne. rewrite (route_add_review_eq id review database Hreviews).
    destruct (book_with id database); [|reflexivity].
    destruct (bind_review _); [|reflexivity].
    cbv zeta. destruct (_ <=? _); [|reflexivity].
    unfold reviews_for. cbn [snd reviews rows].
    rewrite filter_app. cbn [filter].
    unfold book_id_is at 2. cbn [stored_review ReviewModel.book_id column_eq].
    destruct (Z.eqb_spec id id') as [Heq|_];
      [symmetry in Heq; contradiction | apply app_nil_r].
Qed.

Lemma writes_stay_in_their_table_witness :
  reviews (snd (route_add_book dune_1965 example_library)) = reviews example_library /\
  reviews (snd (route_update_book 1 dune_1965 example_library))
    = reviews example_library /\
  books (snd (route_add_review 2 example_review example_library))
    = books example_library /\
  reviews_for 1 (snd (route_add_review 2 example_review example_library))
    = reviews_for 1 example_library.
Proof.
  destruct (writes_stay_in_their_table 2 1 dune_1965 example_review example_library
              well_formed_example) as [_ [_ [Hbooks Hother]]].
  destruct (writes_stay_in_their_table 1 1 dune_1965 example_review example_library
              well_formed_example) as [Hadd [Hupdate _]].
  split; [exact Hadd|]. split; [exact Hupdate|]. split; [exact Hbooks|].
  apply Hother. discriminate.
Defined.

(** X11 (update_book).  Updating a book twice with the same body is the
    same as updating it once: the same answer and the same database. *)
Theorem update_book_idempotent (id : Z) (body : Book.body) (database : Database) :
  route_update_book id body (snd (route_update_book id body database))
  = route_update_book id body database.
Proof.
  rewrite (route_update_book_eq id body database).
  destruct (book_with id database) as [b|] eqn:Hb.
  - cbv zeta. rewrite bind_book_updated.
    destruct (bind_book (new_book (Book.parse_obj body))) as [[]|e] eqn:Hbind.
    + cbn [snd]. rewrite route_update_book_eq.
      unfold book_with at 1. cbn [books].
      rewrite (book_with_table_update id b _ database Hb).
      cbv zeta. cbn [books reviews].
      change (updated_book (updated_book b (Book.parse_obj body)) (Book.parse_obj body))
        with (updated_book b (Book.parse_obj body)).
      rewrite bind_book_updated, Hbind.
      rewrite table_update_twice. reflexivity.
    + cbn [snd]. rewrite route_update_book_eq, Hb. cbv zeta.
      rewrite bind_book_updated, Hbind. reflexivity.
  - cbn [snd]. rewrite route_update_book_eq, Hb. reflexivity.
Qed.

(** X12 (add_review, get_reviews).  After a review that the database
    takes is added to a stored book, listing that book's reviews is never
    Not-Found: it answers with the reviews listed before, followed by the
    new one. *)
Theorem add_review_then_get_reviews
    (id : Z) (review : Review.t) (database : Database) (b : BookModel.t) :
  well_formed database ->
  book_with id database = Some b ->
  bind_review (new_review id review) = Return tt ->
  id_seq (reviews database) + 1 <= int4_max ->
  let k := id_seq (reviews database) + 1 in
  fst (route_get_reviews id (snd (route_add_review id review database))) =
  Return (map Review_from_orm (reviews_for id database) ++
          [Review.mk (Some k) (Some id) (Review.user_id review)
                     (Review.review_text review) (Review.rating review)])%list.
Proof.
  intros [_ Hreviews] Hb Hbind Hseq k.
  rewrite (route_add_review_stored id review database b Hreviews Hb Hbind Hseq).
  cbv zeta. cbn [snd]. rewrite route_get_reviews_eq. cbn [fst].
  rewrite reviews_for_after_add. fold k.
  destruct (reviews_for id database) as [|x found]; [reflexivity|].
  cbn [app map]. rewrite map_app. reflexivity.
Qed.

Lemma add_review_then_get_reviews_witness :
  fst (route_get_reviews 2 (snd (route_add_review 2 example_review example_library))) =
  Return [Review.mk (Some 3) (Some 2) 7 "grim" (-3)].
Proof.
  eapply (add_review_then_get_reviews 2 example_review example_library).
  - exact well_formed_example.
  - reflexivity.
  - reflexivity.
  - vm_compute. discriminate.
Defined.

(** X13 (add_review, get_summary).  After a review that the database takes
    is added to a stored book, the book's summary is available, and its
    rating is the mean of the ratings stored before together with the new
    rating, rounded to a float (the total being within the floats). *)
Theorem add_review_then_get_summary
    (invoke : string -> string) (id : Z) (review : Review.t)
    (database : Database) (b : BookModel.t) :
  well_formed database ->
  book_with id database = Some b ->
  bind_review (new_review id review) = Return tt ->
  id_seq (reviews database) + 1 <= int4_max ->
  Z.abs (total (map ReviewModel.rating (reviews_for id database) ++
                [Review.rating review])) < 2 ^ 1023 ->
  exists s,
    fst (route_get_summary invoke id (snd (route_add_review id review database)))
      = Return s /\
    Float.binary64 (Summary.rating s) /\
    (Qabs (Float.to_Q (Summary.rating s) -
           arithmetic_mean (map ReviewModel.rating (reviews_for id database) ++
                            [Review.rating review])) * 2
     <= Float.ulp (Summary.rating s))%Q.
Proof.
  intros [_ Hreviews] Hb Hbind Hseq Htotal.
  rewrite (route_add_review_stored id review database b Hreviews Hb Hbind Hseq).
  cbv zeta. cbn [snd].
  set (k := id_seq (reviews database) + 1).
  set (after := mk_database (books database)
                  (mk_table (rows (reviews database) ++ [stored_review k id review])%list k)).
  assert (Hratings : map ReviewModel.rating (reviews_for id after)
                     = (map ReviewModel.rating (reviews_for id database) ++
                        [Review.rating review])%list).
  { unfold after. rewrite reviews_for_after_add, map_app. reflexivity. }
  assert (Hne : map ReviewModel.rating (reviews_for id after) <> []).
  { rewrite Hratings. destruct (map ReviewModel.rating (reviews_for id database));
      discriminate. }
  destruct (route_get_summary_returns invoke id after) as [s [Hs Hf]].
  - unfold book_with, after. cbn [books]. unfold book_with in Hb. rewrite Hb.
    discriminate.
  - intros Hnone. apply Hne. rewrite Hnone. reflexivity.
  - rewrite Hratings. exact Htotal.
  - destruct (true_div_rounded_mean _ _ Hne Hf) as [Hfloat Hnear].
    exists s. rewrite Hs. split; [reflexivity|]. split; [exact Hfloat|].
    rewrite <- Hratings. exact Hnear.
Qed.

Lemma add_review_then_get_summary_witness :
  exists s,
    fst (route_get_summary echo 2 (snd (route_add_review 2 example_review example_library)))
      = Return s /\
    Float.binary64 (Summary.rating s) /\
    (Qabs (Float.to_Q (Summary.rating s) -
           arithmetic_mean (map ReviewModel.rating (reviews_for 2 example_library) ++
                            [Review.rating example_review])) * 2
     <= Float.ulp (Summary.rating s))%Q.
Proof.
  eapply (add_review_then_get_summary echo 2 example_review example_library).
  - exact well_formed_example.
  - reflexivity.
  - reflexivity.
  - vm_compute. discriminate.
  - vm_compute. reflexivity.
Defined.

(** X14 (get_summary).  When the mean of the stored ratings is an integer
    below [2^53] in magnitude, as it is for a single review or for equal
    ratings, the rating returned is that integer exactly. *)
Theorem get_summary_rating_exact
    (invoke : string -> string) (id : Z) (database : Database) (q : Z) :
  book_with id database <> None ->
  reviews_for id database <> [] ->
  total (map ReviewModel.rating (reviews_for id database))
    = q * len (reviews_for id database) ->
  Z.abs q < 2 ^ 53 ->
  exists s,
    route_get_summary invoke id database = (Return s, database) /\
    (Float.to_Q (Summary.rating s) == inject_Z q)%Q.
Proof.
  intros Hbook Hrev Htotal Hq.
  rewrite route_get_summary_eq.
  destruct (book_with id database) as [b|]; [|contradiction].
  destruct (reviews_for id database) as [|x found] eqn:Hfound; [contradiction|].
  cbv beta iota zeta.
  unfold total in Htotal. rewrite <- sum_fold_right in Htotal. rewrite Htotal.
  destruct (true_div_exact q (len (x :: found)) (len_pos _ Hrev) Hq) as [f [Hf Hexact]].
  rewrite Hf. cbn [rbind]. eexists. split; [reflexivity | exact Hexact].
Qed.

Lemma get_summary_rating_exact_witness :
  exists s,
    route_get_summary echo 1 (add_reviews 1 [fair; fine] one_book)
      = (Return s, add_reviews 1 [fair; fine] one_book) /\
    (Float.to_Q (Summary.rating s) == inject_Z 2)%Q.
Proof.
  apply (get_summary_rating_exact echo 1 (add_reviews 1 [fair; fine] one_book) 2).
  - vm_compute. discriminate.
  - vm_compute. discriminate.
  - vm_compute. reflexivity.
  - vm_compute. reflexivity.
Defined.

(** X15 (get_recommendations).  Where the answer of the client is taken as
    the operand of [in_] at all, it is iterated character by character:
    every book the handler returns is a stored book whose title is exactly
    one character long; and when the client answers with the empty text,
    the handler returns no book. *)
Theorem get_recommendations_only_one_character_titles
    (version : SQLAlchemy) (invoke : string -> string) (database database' : Database)
    (recommended : list BookModel.t) :
  get_db (books <- get_recommendations version invoke ;; mapM getattrs_book books)
         database
    = (Return recommended, database') ->
  Forall (fun b => In b (rows (books database)) /\
                   String.length (BookModel.title b) = 1%nat) recommended /\
  ((forall prompt, invoke prompt = "") -> recommended = []).
Proof.
  rewrite (get_recommendations_eq getattrs_book (fun b => Return b) version invoke
             database getattrs_book_loaded).
  destruct (rows (books database)) as [|b stored]; [discriminate|].
  cbv beta iota zeta. remember (b :: stored) as stored_books eqn:Hstored.
  clear Hstored b stored.
  destruct (join_optional ", " (map BookModel.summary stored_books))
    as [summaries|e]; [|discriminate].
  cbn [rbind]. destruct version; cbn [in_ rbind]; [|discriminate].
  destruct (bind_text _) as [[]|e]; [|discriminate].
  cbn [rbind]. rewrite (traverse_Return (fun b => b)), map_id.
  intros H. injection H as <- _. split.
  - apply Forall_forall. intros r Hr. apply filter_In in Hr.
    destruct Hr as [Hin Hmember]. split; [exact Hin|].
    exact (in__one_char _ _ Hmember).
  - intros Hempty. rewrite Hempty.
    induction stored_books as [|a l IH]; [reflexivity | exact IH].
Qed.

Lemma get_recommendations_only_one_character_titles_witness :
  Forall (fun b => In b (rows (books example_library)) /\
                   String.length (BookModel.title b) = 1%nat)
         [BookModel.mk (Some 2) "D" "Anon" None YearNone (Some "")] /\
  exists recommended,
    get_db (books <- get_recommendations SQLAlchemy_1_3 silent ;;
            mapM getattrs_book books)
           example_library = (Return recommended, example_library) /\
    recommended = [].
Proof.
  split.
  - apply (get_recommendations_only_one_character_titles SQLAlchemy_1_3 answer_D
             example_library example_library).
    reflexivity.
  - eexists. split; [reflexivity|].
    apply (get_recommendations_only_one_character_titles SQLAlchemy_1_3 silent
             example_library example_library [] eq_refl).
    reflexivity.
Defined.

(** X16 (get_recommendations).  The recommendations route writes nothing:
    whatever it answers, the database is handed back as it was given. *)
Theorem get_recommendations_leaves_database_unchanged
    (version : SQLAlchemy) (invoke : string -> string) (database : Database) :
  snd (route_get_recommendations version invoke database) = database.
Proof.
  unfold route_get_recommendations. apply get_db_read_only.
  apply read_only_bind; [apply read_only_get_recommendations|].
  intros books. apply read_only_mapM. apply read_only_response_Book.
Qed.

(** X17 (add_book, update_book, delete_book, add_review).  Keys stay
    unique: if keys come from the sequences and no two books and no two
    reviews share a key, the same holds after every writing route. *)
Theorem routes_preserve_unique_keys (database : Database) :
  well_formed database ->
  unique_keys BookModel.id (books database) ->
  unique_keys ReviewModel.id (reviews database) ->
  (forall body,
      let after := snd (route_add_book body database) in
      unique_keys BookModel.id (books after) /\
      unique_keys ReviewModel.id (reviews after)) /\
  (forall id body,
      let after := snd (route_update_book id body database) in
      unique_keys BookModel.id (books after) /\
      unique_keys ReviewModel.id (reviews after)) /\
  (forall id,
      let after := snd (route_delete_book id database) in
      unique_keys BookModel.id (books after) /\
      unique_keys ReviewModel.id (reviews after)) /\
  (forall id review,
      let after := snd (route_add_review id review database) in
      unique_keys BookModel.id (books after) /\
      unique_keys ReviewModel.id (reviews after)).
Proof.
  intros [Hbooks Hreviews] Hub Hur.
  assert (Hsame : unique_keys BookModel.id (books database) /\
                  unique_keys ReviewModel.id (reviews database)) by (split; assumption).
  split; [|split; [|split]].
  - intros body after. subst after.
    rewrite (route_add_book_eq body database Hbooks). cbv zeta.
    destruct (bind_book _); [|exact Hsame].
    destruct (_ <=? _); [|exact Hsame].
    cbn [snd books reviews]. split; [|exact Hur].
    apply unique_keys_insert; [reflexivity | exact Hbooks | exact Hub].
  - intros id body after. subst after. rewrite route_update_book_eq.
    destruct (book_with id database) as [b|]; [|exact Hsame].
    cbv zeta. destruct (bind_book _); [|exact Hsame].
    cbn [snd books reviews]. split; [|exact Hur].
    apply unique_keys_update. exact Hub.
  - intros id after. subst after. rewrite route_delete_book_eq.
    destruct (book_with id database) as [b|]; [|exact Hsame].
    destruct (referenced b database); [exact Hsame|].
    cbn [snd books reviews]. split; [|exact Hur].
    apply unique_keys_delete. exact Hub.
  - intros id review after. subst after.
    rewrite (route_add_review_eq id review database Hreviews).
    destruct (book_with id database) as [b|]; [|exact Hsame].
    destruct (bind_review _); [|exact Hsame].
    cbv zeta. destruct (_ <=? _); [|exact Hsame].
    cbn [snd books reviews]. split; [exact Hub|].
    apply unique_keys_insert; [reflexivity | exact Hreviews | exact Hur].
Qed.

Lemma routes_preserve_unique_keys_witness :
  unique_keys BookModel.id (books (snd (route_add_book dune_1965 example_library))) /\
  unique_keys ReviewModel.id
    (reviews (snd (route_add_review 1 example_review example_library))).
Proof.
  destruct (routes_preserve_unique_keys example_library well_formed_example
              (proj1 unique_keys_example) (proj2 unique_keys_example))
    as [Hadd [_ [_ Hreview]]].
  split; [apply (Hadd dune_1965) | apply (Hreview 1 example_review)].
Defined.

(** X18 (delete_book).  With unique keys, deleting a stored book that no
    review references removes exactly one row of the books table, and a
    second delete of the same key is Not-Found and changes nothing. *)
Theorem delete_book_removes_exactly_one
    (id : Z) (database : Database) (b : BookModel.t) :
  unique_keys BookModel.id (books database) ->
  book_with id database = Some b ->
  reviews_for id database = [] ->
  let after := snd (route_delete_book id database) in
  (List.length (rows (books after)) + 1 = List.length (rows (books database)))%nat /\
  route_delete_book id after = (Raise Book_not_found, after).
Proof.
  intros Hu Hb Hnone after. subst after.
  rewrite (route_delete_book_eq id database), Hb.
  apply (referenced_reviews_for id b database (find_some_key _ _ _ Hb)) in Hnone.
  rewrite Hnone. cbn [snd]. split.
  - unfold table_delete. cbn [books rows].
    apply (delete_removes_one BookModel.id b id).
    + exact (find_some_key _ _ _ Hb).
    + apply find_some in Hb. apply Hb.
    + exact Hu.
  - rewrite route_delete_book_eq. unfold book_with, table_delete. cbn [books rows].
    pose proof (find_table_delete BookModel.id b id (rows (books database))
                  (find_some_key _ _ _ Hb)) as Hgone.
    unfold id_is. rewrite Hgone. reflexivity.
Qed.

Lemma delete_book_removes_exactly_one_witness :
  (List.length (rows (books (snd (route_delete_book 2 example_library)))) + 1
   = List.length (rows (books example_library)))%nat /\
  route_delete_book 2 (snd (route_delete_book 2 example_library))
  = (Raise Book_not_found, snd (route_delete_book 2 example_library)).
Proof.
  eapply (delete_book_removes_exactly_one 2 example_library).
  - exact (proj1 unique_keys_example).
  - reflexivity.
  - reflexivity.
Defined.

(** X20 (add_book).  Nothing detects duplicates: creating a book twice from
    the same body, which the database takes, stores two rows, equal but for
    their keys, which are the next two values of the sequence. *)
Theorem add_book_twice_stores_two_rows (body : Book.body) (database : Database) :
  well_formed database ->
  bind_book (new_book (Book.parse_obj body)) = Return tt ->
  id_seq (books database) + 2 <= int4_max ->
  let k := id_seq (books database) + 1 in
  let once := snd (route_add_book body database) in
  let twice := snd (route_add_book body once) in
  rows (books twice) =
    (rows (books database) ++
     [stored_book k (Book.parse_obj body); stored_book (k + 1) (Book.parse_obj body)])%list /\
  id_seq (books twice) = k + 1.
Proof.
  intros [Hbooks Hreviews] Hbind Hseq k once twice.
  assert (Honce : once =
            mk_database
              (mk_table (rows (books database) ++ [stored_book k (Book.parse_obj body)]) k)
              (reviews database)).
  { subst once. rewrite (route_add_book_stored body database Hbooks Hbind) by lia.
    reflexivity. }
  assert (Hbelow : keys_below BookModel.id (books once)).
  { rewrite Honce. cbn [books].
    apply keys_below_insert; [reflexivity | exact Hbooks]. }
  subst twice. rewrite (route_add_book_stored body once Hbelow Hbind).
  - rewrite Honce. cbn [snd books rows id_seq].
    rewrite <- app_assoc. split; reflexivity.
  - rewrite Honce. cbn [books id_seq]. subst k. lia.
Qed.

Lemma add_book_twice_stores_two_rows_witness :
  rows (books (snd (route_add_book dune_1965
                      (snd (route_add_book dune_1965 empty_database))))) =
    [stored_book 1 (Book.parse_obj dune_1965); stored_book 2 (Book.parse_obj dune_1965)] /\
  id_seq (books (snd (route_add_book dune_1965
                        (snd (route_add_book dune_1965 empty_database))))) = 2.
Proof.
  apply (add_book_twice_stores_two_rows dune_1965 empty_database).
  - exact well_formed_empty.
  - reflexivity.
  - vm_compute. discriminate.
Defined.

(** X21 (add_book).  The [id] a create body carries is ignored: two bodies
    that differ only in [id] give the same answer and the same database. *)
Theorem add_book_ignores_body_id
    (i j : Field Z) (title author : string) (genre : Field string)
    (year : Field Z) (summary : Field string) (database : Database) :
  well_formed database ->
  route_add_book (Book.mk_body i title author genre year summary) database
  = route_add_book (Book.mk_body j title author genre year summary) database.
Proof.
  intros [Hbooks _].
  rewrite !(route_add_book_eq _ database Hbooks).
  reflexivity.
Qed.

Lemma add_book_ignores_body_id_witness :
  route_add_book (Book.mk_body (Given 77) "Dune" "Herbert" Missing (Given 1965) Null)
                 example_library
  = route_add_book dune_1965 example_library.
Proof.
  apply (add_book_ignores_body_id (Given 77) Missing "Dune" "Herbert" Missing
           (Given 1965) Null example_library).
  exact well_formed_example.
Defined.

(** X22 (add_review, get_summary).  The rating of a summary does not depend
    on the order in which the reviews were posted: posting the same reviews
    for a stored book in two orders, all of them taken by the database and
    within the sequence of keys, gives the same rating, or the same
    exception, from the summary route. *)
Theorem get_summary_rating_any_insertion_order
    (invoke : string -> string) (id : Z) (database : Database) (b : BookModel.t)
    (l l' : list Review.t) :
  well_formed database ->
  book_with id database = Some b ->
  Forall (fun review => bind_review (new_review id review) = Return tt) l ->
  id_seq (reviews database) + len l <= int4_max ->
  Permutation l l' ->
  rating_of (fst (route_get_summary invoke id (add_reviews id l database)))
  = rating_of (fst (route_get_summary invoke id (add_reviews id l' database))).
Proof.
  intros [_ Hreviews] Hb Hall Hseq Hperm.
  assert (Hall' : Forall (fun review => bind_review (new_review id review) = Return tt) l').
  { rewrite Forall_forall in *. intros r Hr. apply Hall.
    apply (Permutation_in r (Permutation_sym Hperm) Hr). }
  assert (Hseq' : id_seq (reviews database) + len l' <= int4_max).
  { rewrite <- (len_Permutation _ _ Hperm). exact Hseq. }
  destruct (add_reviews_stored id l database b Hreviews Hb Hall Hseq) as [Hbooks Hr].
  destruct (add_reviews_stored id l' database b Hreviews Hb Hall' Hseq') as [Hbooks' Hr'].
  apply route_get_summary_same_ratings.
  - unfold book_with in *. rewrite Hbooks, Hb. discriminate.
  - unfold book_with in *. rewrite Hbooks', Hb. discriminate.
  - rewrite Hr, Hr'. apply Permutation_app_head. apply Permutation_map. exact Hperm.
Qed.

Lemma get_summary_rating_any_insertion_order_witness :
  rating_of (fst (route_get_summary echo 1 (add_reviews 1 [thin; fair; fine] one_book)))
  = rating_of (fst (route_get_summary echo 1 (add_reviews 1 [fine; thin; fair] one_book))).
Proof.
  eapply (get_summary_rating_any_insertion_order echo 1 one_book).
  - exact well_formed_one_book.
  - reflexivity.
  - repeat constructor.
  - vm_compute. discriminate.
  - apply perm_trans with [thin; fine; fair]; [apply perm_skip, perm_swap | apply perm_swap].
Defined.

(** X19 (add_book, update_book, delete_book, add_review).  Referential
    integrity: if every stored review references a stored book, the same
    holds after every writing route, whatever it answers. *)
Theorem routes_preserve_referential_integrity (database : Database) :
  well_formed database ->
  referential_integrity database ->
  (forall body, referential_integrity (snd (route_add_book body database))) /\
  (forall id body, referential_integrity (snd (route_update_book id body database))) /\
  (forall id, referential_integrity (snd (route_delete_book id database))) /\
  (forall id review, referential_integrity (snd (route_add_review id review database))).
Proof.
  intros [Hbooks Hreviews] Hri. unfold referential_integrity in *.
  split; [|split; [|split]].
  - intros body. rewrite (route_add_book_eq body database Hbooks). cbv zeta.
    destruct (bind_book _); [|exact Hri].
    destruct (_ <=? _); [|exact Hri].
    cbn [snd reviews]. eapply Forall_impl; [|exact Hri].
    intros x. unfold references_book. cbn [books rows].
    destruct (ReviewModel.book_id x); [apply existsb_app_l | trivial].
  - intros id body. rewrite route_update_book_eq.
    destruct (book_with id database) as [b|]; [|exact Hri].
    cbv zeta. destruct (bind_book _); [|exact Hri].
    cbn [snd reviews]. eapply Forall_impl; [|exact Hri].
    intros x. unfold references_book, table_update. cbn [books rows].
    destruct (ReviewModel.book_id x); [|trivial].
    rewrite existsb_table_update. trivial.
  - intros id. rewrite route_delete_book_eq.
    destruct (book_with id database) as [b|] eqn:Hb; [|exact Hri].
    destruct (referenced b database) eqn:Href; [exact Hri|].
    cbn [snd reviews]. rewrite Forall_forall in *. intros x Hx.
    specialize (Hri x Hx). unfold references_book, table_delete in *. cbn [books rows].
    destruct (ReviewModel.book_id x) as [k|] eqn:Hk; [|exact Hri].
    rewrite (existsb_table_delete k id b _ (find_some_key _ _ _ Hb)); [exact Hri|].
    intros ->. unfold referenced in Href. rewrite (find_some_key _ _ _ Hb) in Href.
    assert (Hex : existsb (book_id_is id) (rows (reviews database)) = true).
    { apply existsb_exists. exists x. split; [exact Hx|].
      unfold book_id_is. rewrite Hk. cbn [column_eq]. apply Z.eqb_refl. }
    rewrite Hex in Href. discriminate.
  - intros id review. rewrite (route_add_review_eq id review database Hreviews).
    destruct (book_with id database) as [b|] eqn:Hb; [|exact Hri].
    destruct (bind_review _); [|exact Hri].
    cbv zeta. destruct (_ <=? _); [|exact Hri].
    cbn [snd reviews rows]. rewrite Forall_app. split.
    + exact Hri.
    + constructor; [|constructor].
      unfold references_book. cbn [stored_review ReviewModel.book_id books].
      exact (find_existsb _ _ _ Hb).
Qed.

Lemma referential_integrity_example : referential_integrity example_library.
Proof. repeat constructor. Qed.

Lemma routes_preserve_referential_integrity_witness :
  referential_integrity (snd (route_delete_book 1 example_library)) /\
  referential_integrity (snd (route_delete_book 2 example_library)) /\
  referential_integrity (snd (route_add_review 2 example_review example_library)).
Proof.
  destruct (routes_preserve_referential_integrity example_library well_formed_example
              referential_integrity_example) as [_ [_ [Hdelete Hreview]]].
  split; [apply (Hdelete 1)|]. split; [apply (Hdelete 2) | apply (Hreview 2 example_review)].
Defined.



(** X24 (add_book, update_book, add_review).  What an [Integer] column does
    not take is refused: a year, a rating or a user beyond 32 bits makes
    the request for a stored book answer with an exception, and nothing is
    stored. *)
Theorem integers_beyond_32_bits_refused
    (id : Z) (body : Book.body) (review : Review.t) (database : Database)
    (b : BookModel.t) (y : Z) :
  book_with id database = Some b ->
  (Book.body_year_published body = Given y -> int4 y = false ->
   (exists e, route_add_book body database = (Raise e, database)) /\
   (exists e, route_update_book id body database = (Raise e, database))) /\
  (int4 (Review.rating review) = false \/ int4 (Review.user_id review) = false ->
   exists e, route_add_review id review database = (Raise e, database)).
Proof.
  intros Hb. split.
  - intros Hyear Hrange.
    assert (Hrefused : exists e, bind_book (new_book (Book.parse_obj body)) = Raise e).
    { unfold bind_book, new_book, Book.parse_obj.
      cbn [BookModel.title BookModel.author BookModel.genre BookModel.summary
           BookModel.year_published Book.title Book.author Book.genre Book.summary
           Book.year_published].
      rewrite Hyear. cbn [bind_year]. unfold bind_integer. rewrite Hrange.
      destruct (bind_text (Book.body_title body)) as [[]|e]; [|eexists; reflexivity].
      destruct (bind_text (Book.body_author body)) as [[]|e]; [|eexists; reflexivity].
      destruct (bind_optional_text _) as [[]|e]; [|eexists; reflexivity].
      destruct (bind_optional_text _) as [[]|e]; eexists; reflexivity. }
    destruct Hrefused as [e He]. split; exists e.
    + exact (route_add_book_refused body database e He).
    + rewrite route_update_book_eq, Hb. cbv zeta.
      rewrite bind_book_updated, He. reflexivity.
  - intros Hrange.
    assert (Hrefused : exists e, bind_review (new_review id review) = Raise e).
    { unfold bind_review, new_review, bind_integer.
      cbn [ReviewModel.review_text ReviewModel.user_id ReviewModel.rating].
      destruct (bind_text _) as [[]|e]; [|eexists; reflexivity].
      cbn [rbind]. destruct (int4 (Review.user_id review)); [|eexists; reflexivity].
      cbn [rbind]. destruct Hrange as [Hr|Hu]; [|discriminate].
      rewrite Hr. eexists; reflexivity. }
    destruct Hrefused as [e He]. exists e.
    unfold route_add_review, get_db, add_review.
    unfold mbind at 1 2. rewrite query_books_first_run.
    cbn [SessionLocal engine identity_map List.length app].
    unfold book_with in Hb. rewrite Hb.
    unfold mbind, getattrs_book, db_add, track, db_commit.
    cbn [identity_map engine nth_error List.length app flush flush_obj rbind].
    rewrite (find_some_key _ _ _ Hb). fold (new_review id review).
    rewrite He. reflexivity.
Qed.

Lemma integers_beyond_32_bits_refused_witness :
  (exists e,
     route_add_book (Book.mk_body Missing "Dune" "Herbert" Missing (Given 2147483648) Null)
                    example_library = (Raise e, example_library)) /\
  (exists e,
     route_add_review 2 (Review.mk None None 7 "grim" (-2147483649)) example_library
     = (Raise e, example_library)).
Proof.
  destruct (integers_beyond_32_bits_refused 2
              (Book.mk_body Missing "Dune" "Herbert" Missing (Given 2147483648) Null)
              (Review.mk None None 7 "grim" (-2147483649)) example_library
              (BookModel.mk (Some 2) "D" "Anon" None YearNone (Some "")) 2147483648
              eq_refl) as [Hbook Hreview].
  split.
  - apply Hbook; reflexivity.
  - apply Hreview. left. reflexivity.
Defined.
